(** * The countermeasure subsystem of [countermeasure.py]

    A shallow embedding of the module: the process-wide set
    [BLOCKED_IP_CACHE], its durable mirror [BLOCK_FILE], the start-up load,
    [save_blocked_cache], and the three backends [WindowsFirewall],
    [LinuxIPTables] and [SDNController] with their [block_ip] and
    [unblock_ip] methods.

    The Python code mutates module-level state and calls into the operating
    system, so every function is a computation in a small state-and-exception
    monad over a [World]; what the outside does (exit status of a shell
    command, a failing HTTP call, a failing file write, the iteration order of
    a Python set) is read from an [Env] given to each call.

    Modelling boundary.  [json.dump]/[json.load] are the Python standard
    library: a file is represented by what [json.load] makes of it (it raises,
    or it yields a JSON value), not by its bytes.  JSON numbers are integers
    (a float member cannot arise from [block_ip] on address strings), and a
    boolean member is the integer it equals, as for Python's set; how such a
    member is spelled when written back is not tracked, so statements about
    the file are made through what a load reads from it.  Durations are
    integers that Python can format.  Calls run one at a time: thread
    interleavings are not modelled, a started [threading.Timer] is a pending
    entry that [fire] runs later.  [print] and starting a thread are assumed
    not to fail, so what is proved about a call holds for the runs in which
    they do not. *)

From Stdlib Require Import ZArith Ascii String.
From stdpp Require Import base decidable countable strings pretty list sets gmap.

#[local] Set Warnings "-clear-no-such-hyp".

Local Open Scope Z_scope.
Local Open Scope string_scope.

(** ** Python values that occur in the module *)

(** Exceptions, all of them subclasses of [Exception]. *)
Inductive exn :=
| ValueError (msg : string)
| KeyError (key : string)
| TypeError (msg : string)
| OSError (msg : string)
| ModuleNotFoundError (name : string)
| JSONDecodeError
| RequestException (msg : string).

(** What [json.load] can yield. *)
#[warnings="-register-all"]
Inductive json :=
| JNull
| JBool (b : bool)
| JInt (n : Z)
| JStr (s : string)
| JArr (items : list json)
| JObj (fields : list (string * json)).

(** Members of a Python set are hashable values.  The JSON scalars are
    hashable; [True == 1] and [False == 0] with equal hashes, so a boolean is
    the same member as the integer it equals. *)
Inductive member :=
| MNone
| MInt (n : Z)
| MStr (s : string).

#[global] Instance member_eq_dec : EqDecision member.
Proof. solve_decision. Defined.

Definition member_to_sum (m : member) : unit + Z + string :=
  match m with
  | MNone => inl (inl tt)
  | MInt n => inl (inr n)
  | MStr s => inr s
  end.

Definition member_of_sum (x : unit + Z + string) : member :=
  match x with
  | inl (inl _) => MNone
  | inl (inr n) => MInt n
  | inr s => MStr s
  end.

#[global] Instance member_countable : Countable member.
Proof.
  apply (inj_countable' member_to_sum member_of_sum).
  intros []; reflexivity.
Defined.

(** [hash(x)]: lists and dicts are unhashable. *)
Definition hashable (j : json) : option member :=
  match j with
  | JNull => Some MNone
  | JBool b => Some (MInt (Z.b2z b))
  | JInt n => Some (MInt n)
  | JStr s => Some (MStr s)
  | JArr _ | JObj _ => None
  end.

(** How [json.dump] writes a member. *)
Definition member_json (m : member) : json :=
  match m with
  | MNone => JNull
  | MInt n => JInt n
  | MStr s => JStr s
  end.

(** [isinstance(data, list)]. *)
Definition is_list (j : json) : bool :=
  match j with
  | JArr _ => true
  | _ => false
  end.

(** ** The world *)

(** The durable file, as [open(BLOCK_FILE, "r")] and [json.load] see it:
    it cannot be read, it holds bytes that are no JSON document, it holds the
    text of one document, or it holds no bytes at all (which is no document
    either). *)
Inductive file_content :=
| Unreadable
| Malformed
| Document (j : json)
| Empty.

Inductive Backend := Windows | Linux | SDN.

#[global] Instance Backend_eq_dec : EqDecision Backend.
Proof. solve_decision. Defined.

(** A started [threading.Timer(interval, self.unblock_ip, args=[ip])];
    [daemon] is [Some true] where the code sets it and [None] where the flag
    is left to the default. *)
Record Timer := {
  interval : Z;
  target : Backend;
  args : string;
  daemon : option bool
}.

(** Calls that leave the process. *)
Inductive call :=
| Shell (cmd : string)
| HttpPost (url : string) (payload : json) (timeout : Z).

(** The lines the module prints. *)
Inductive line :=
| LineBlocking (ip : string) (duration : Z)
| LineBlockError (e : exn)
| LineUnblocking (ip : string)
| LineUnblockError (e : exn)
| LineSdnPush (ip : string)
| LineSdnDelete (ip : string).

Record World := {
  BLOCKED_IP_CACHE : gset member;
  BLOCK_FILE : option file_content;
  timers : list Timer;
  calls : list call;
  stdout : list line
}.

(** How a shell command ends. *)
Inductive sys_result :=
| Exit (status : Z)
| SysRaises (e : exn).

(** What the outside does during one call.  [iteration_order] is the order
    in which [list(BLOCKED_IP_CACHE)] enumerates the set: unspecified in
    Python, but always an enumeration of the set. *)
Record Env := {
  os_system_outcome : string → sys_result;
  requests_importable : bool;
  requests_post_error : option exn;
  open_w_error : option exn;
  write_error : option exn;
  makedirs_error : option exn;
  iteration_order : gset member → list member;
  iteration_order_perm : ∀ X, iteration_order X ≡ₚ elements X
}.

(** ** A state-and-exception monad *)

Inductive result (A : Type) :=
| Ok (a : A)
| Raise (e : exn).
Arguments Ok {A} a.
Arguments Raise {A} e.

Definition Py (A : Type) : Type := World → result A * World.

#[global] Instance Py_ret : MRet Py := λ A a w, (Ok a, w).

#[global] Instance Py_bind : MBind Py := λ A B k m w,
  match m w with
  | (Ok a, w') => k a w'
  | (Raise e, w') => (Raise e, w')
  end.

Definition raise {A} (e : exn) : Py A := λ w, (Raise e, w).

(** [try: body  except Exception as e: handler e]. *)
Definition try_except {A} (body : Py A) (handler : exn → Py A) : Py A := λ w,
  match body w with
  | (Ok a, w') => (Ok a, w')
  | (Raise e, w') => handler e w'
  end.

Definition gets {A} (f : World → A) : Py A := λ w, (Ok (f w), w).

Definition modify (f : World → World) : Py unit := λ w, (Ok tt, f w).

Definition set_cache (X : gset member) (w : World) : World :=
  {| BLOCKED_IP_CACHE := X; BLOCK_FILE := BLOCK_FILE w; timers := timers w;
     calls := calls w; stdout := stdout w |}.

Definition set_file (f : option file_content) (w : World) : World :=
  {| BLOCKED_IP_CACHE := BLOCKED_IP_CACHE w; BLOCK_FILE := f; timers := timers w;
     calls := calls w; stdout := stdout w |}.

Definition push_timer (t : Timer) (w : World) : World :=
  {| BLOCKED_IP_CACHE := BLOCKED_IP_CACHE w; BLOCK_FILE := BLOCK_FILE w;
     timers := timers w ++ [t]; calls := calls w; stdout := stdout w |}.

Definition push_call (c : call) (w : World) : World :=
  {| BLOCKED_IP_CACHE := BLOCKED_IP_CACHE w; BLOCK_FILE := BLOCK_FILE w;
     timers := timers w; calls := calls w ++ [c]; stdout := stdout w |}.

Definition push_line (l : line) (w : World) : World :=
  {| BLOCKED_IP_CACHE := BLOCKED_IP_CACHE w; BLOCK_FILE := BLOCK_FILE w;
     timers := timers w; calls := calls w; stdout := stdout w ++ [l] |}.

(** ** Primitives *)

Definition print (l : line) : Py unit := modify (push_line l).

(** [x in BLOCKED_IP_CACHE]. *)
Definition cache_contains (m : member) : Py bool :=
  gets (λ w, bool_decide (m ∈ BLOCKED_IP_CACHE w)).

(** [BLOCKED_IP_CACHE.add(x)]. *)
Definition cache_add (m : member) : Py unit :=
  modify (λ w, set_cache ({[m]} ∪ BLOCKED_IP_CACHE w) w).

(** [BLOCKED_IP_CACHE.remove(x)]: raises [KeyError] on a missing member. *)
Definition cache_remove (ip : string) : Py unit :=
  b ← cache_contains (MStr ip);
  if b : bool then modify (λ w, set_cache (BLOCKED_IP_CACHE w ∖ {[MStr ip]}) w)
  else raise (KeyError ip).

Fixpoint has_nul (s : string) : bool :=
  match s with
  | EmptyString => false
  | String c s' => if Ascii.eqb c "000"%char then true else has_nul s'
  end.

(** [os.system(cmd)]: a command with an embedded null character is refused
    with [ValueError] before anything runs; otherwise the call is made and
    ends as the environment says. *)
Definition os_system (env : Env) (cmd : string) : Py Z :=
  if has_nul cmd then raise (ValueError "embedded null byte")
  else
    modify (push_call (Shell cmd));;
    match os_system_outcome env cmd with
    | Exit status => mret status
    | SysRaises e => raise e
    end.

(** [open(BLOCK_FILE, "w")]: truncates the file to no bytes. *)
Definition open_w (env : Env) : Py unit :=
  match open_w_error env with
  | Some e => raise e
  | None => modify (set_file (Some Empty))
  end.

(** What a file holds once the text of [obj] has been written after the
    bytes it held: the document [obj] when it held none, and otherwise bytes
    that are not that document. *)
Definition after_write (old : option file_content) (obj : json)
  : option file_content :=
  match old with
  | Some Empty => Some (Document obj)
  | _ => Some Malformed
  end.

(** [json.dump(obj, f)]: writes the text of [obj] at the end of what the
    file holds; a write that fails leaves an incomplete text. *)
Definition json_dump (env : Env) (obj : json) : Py unit :=
  match write_error env with
  | Some e => modify (set_file (Some Malformed));; raise e
  | None => modify (λ w, set_file (after_write (BLOCK_FILE w) obj) w)
  end.

(** [list(BLOCKED_IP_CACHE)] as JSON. *)
Definition cache_json (env : Env) (X : gset member) : json :=
  JArr (member_json <$> iteration_order env X).

(** [t = threading.Timer(...); t.start()]. *)
Definition timer_start (t : Timer) : Py unit := modify (push_timer t).

(** ** [save_blocked_cache] (lines 25-30) *)

Definition save_blocked_cache (env : Env) : Py unit :=
  try_except
    (open_w env;;
     X ← gets BLOCKED_IP_CACHE;
     json_dump env (cache_json env X))
    (λ _, mret tt).

(** ** Module initialisation (lines 7-23) *)

(** [os.makedirs(..., exist_ok=True)]: when the file is there its directory
    is there too and the call returns; otherwise the environment decides. *)
Definition makedirs (env : Env) : Py unit :=
  f ← gets BLOCK_FILE;
  match f, makedirs_error env with
  | None, Some e => raise e
  | _, _ => mret tt
  end.

(** [with open(BLOCK_FILE, "r") as f: data = json.load(f)]. *)
Definition json_load : Py json :=
  f ← gets BLOCK_FILE;
  match f with
  | None => raise (OSError "No such file or directory")
  | Some Unreadable => raise (OSError "cannot read")
  | Some Malformed | Some Empty => raise JSONDecodeError
  | Some (Document j) => mret j
  end.

(** [BLOCKED_IP_CACHE.update(data)]: members are added one by one, an
    unhashable one stops the loop with [TypeError]. *)
Fixpoint cache_update (items : list json) : Py unit :=
  match items with
  | [] => mret tt
  | x :: rest =>
      match hashable x with
      | Some m => cache_add m;; cache_update rest
      | None => raise (TypeError "unhashable type")
      end
  end.

Definition load_blocked_cache : Py unit :=
  f ← gets BLOCK_FILE;
  if bool_decide (is_Some f) then
    try_except
      (data ← json_load;
       match data with
       | JArr items => cache_update items
       | _ => mret tt
       end)
      (λ _, mret tt)
  else mret tt.

Definition module_init (env : Env) : Py unit :=
  modify (set_cache ∅);;
  makedirs env;;
  load_blocked_cache.

(** A fresh process over a disk. *)
Definition boot (disk : option file_content) : World :=
  {| BLOCKED_IP_CACHE := ∅; BLOCK_FILE := disk; timers := []; calls := [];
     stdout := [] |}.

(** A restart: memory, timers and output are gone, the file stays. *)
Definition restart (env : Env) (w : World) : result unit * World :=
  module_init env (boot (BLOCK_FILE w)).

(** ** The backends *)

Definition dquote : string := String "034"%char EmptyString.

Definition rule_name (ip_address : string) : string :=
  "Block_SDN_Attacker_" +:+ ip_address.

Definition IP_ALREADY_BLOCKED_FOR (duration : Z) : string :=
  "IP_ALREADY_BLOCKED_FOR_" +:+ pretty duration +:+ "s".

Definition IP_BLOCKED_FOR (duration : Z) : string :=
  "IP_BLOCKED_FOR_" +:+ pretty duration +:+ "s".

Definition BLOCK_FAILED : string := "BLOCK_FAILED".

Definition SDN_BLOCK_PUSHED_FOR (duration : Z) : string :=
  "SDN_BLOCK_PUSHED_FOR_" +:+ pretty duration +:+ "s".

(** *** [class WindowsFirewall] (lines 48-91) *)
Module WindowsFirewall.

Definition add_rule_cmd (ip_address : string) : string :=
  "netsh advfirewall firewall add rule name=" +:+ dquote +:+ rule_name ip_address
  +:+ dquote +:+ " dir=in interface=any action=block remoteip=" +:+ ip_address.

Definition delete_rule_cmd (ip_address : string) : string :=
  "netsh advfirewall firewall delete rule name=" +:+ dquote
  +:+ rule_name ip_address +:+ dquote.

(** Lines 50-74. *)
Definition block_ip (env : Env) (ip_address : string) (duration : Z)
  : Py (option string) :=
  blocked ← cache_contains (MStr ip_address);
  if blocked : bool then mret (Some (IP_ALREADY_BLOCKED_FOR duration))
  else
    print (LineBlocking ip_address duration);;
    try_except
      (os_system env (add_rule_cmd ip_address);;
       cache_add (MStr ip_address);;
       save_blocked_cache env;;
       timer_start {| interval := duration; target := Windows;
                      args := ip_address; daemon := Some true |};;
       mret (Some (IP_BLOCKED_FOR duration)))
      (λ e, print (LineBlockError e);; mret (Some BLOCK_FAILED)).

(** Lines 76-91. *)
Definition unblock_ip (env : Env) (ip_address : string) : Py (option string) :=
  blocked ← cache_contains (MStr ip_address);
  if negb blocked then mret None
  else
    print (LineUnblocking ip_address);;
    try_except
      (os_system env (delete_rule_cmd ip_address);;
       cache_remove ip_address;;
       save_blocked_cache env;;
       mret None)
      (λ e, print (LineUnblockError e);; mret None).

End WindowsFirewall.

(** *** [class LinuxIPTables] (lines 94-116) *)
Module LinuxIPTables.

Definition append_cmd (ip_address : string) : string :=
  "iptables -A INPUT -s " +:+ ip_address +:+ " -j DROP".

Definition delete_cmd (ip_address : string) : string :=
  "iptables -D INPUT -s " +:+ ip_address +:+ " -j DROP".

(** Lines 95-108: no timer is started. *)
Definition block_ip (env : Env) (ip_address : string) (duration : Z)
  : Py (option string) :=
  blocked ← cache_contains (MStr ip_address);
  if blocked : bool then mret (Some (IP_ALREADY_BLOCKED_FOR duration))
  else
    os_system env (append_cmd ip_address);;
    cache_add (MStr ip_address);;
    save_blocked_cache env;;
    mret (Some (IP_BLOCKED_FOR duration)).

(** Lines 110-116: no membership test, no [try]. *)
Definition unblock_ip (env : Env) (ip_address : string) : Py (option string) :=
  os_system env (delete_cmd ip_address);;
  cache_remove ip_address;;
  save_blocked_cache env;;
  mret None.

End LinuxIPTables.

(** *** [class SDNController] (lines 119-148) *)
Module SDNController.

Definition SDN_CONTROLLER_URL : string :=
  "http://127.0.0.1:8080/stats/flowentry/add".

Definition payload (ip_address : string) : json :=
  JObj [("dpid", JInt 1);
        ("priority", JInt 1000);
        ("match", JObj [("ipv4_src", JStr ip_address); ("eth_type", JInt 2048)]);
        ("actions", JArr [])].

(** [import requests] inside the method. *)
Definition import_requests (env : Env) : Py unit :=
  if requests_importable env then mret tt
  else raise (ModuleNotFoundError "requests").

(** [requests.post(url, json=payload, timeout=3)]. *)
Definition requests_post (env : Env) (url : string) (body : json) (timeout : Z)
  : Py unit :=
  modify (push_call (HttpPost url body timeout));;
  match requests_post_error env with
  | Some e => raise e
  | None => mret tt
  end.

(** Lines 120-143: no membership test; a failing POST is swallowed. *)
Definition block_ip (env : Env) (ip_address : string) (duration : Z)
  : Py (option string) :=
  print (LineSdnPush ip_address);;
  import_requests env;;
  try_except
    (requests_post env SDN_CONTROLLER_URL (payload ip_address) 3)
    (λ _, mret tt);;
  cache_add (MStr ip_address);;
  save_blocked_cache env;;
  timer_start {| interval := duration; target := SDN; args := ip_address;
                 daemon := None |};;
  mret (Some (SDN_BLOCK_PUSHED_FOR duration)).

(** Lines 145-148: no membership test, no [try]. *)
Definition unblock_ip (env : Env) (ip_address : string) : Py (option string) :=
  print (LineSdnDelete ip_address);;
  cache_remove ip_address;;
  save_blocked_cache env;;
  mret None.

End SDNController.

(** ** The [BaseCountermeasure] interface *)

Definition block_ip (b : Backend) : Env → string → Z → Py (option string) :=
  match b with
  | Windows => WindowsFirewall.block_ip
  | Linux => LinuxIPTables.block_ip
  | SDN => SDNController.block_ip
  end.

Definition unblock_ip (b : Backend) : Env → string → Py (option string) :=
  match b with
  | Windows => WindowsFirewall.unblock_ip
  | Linux => LinuxIPTables.unblock_ip
  | SDN => SDNController.unblock_ip
  end.

(** The pending timer at position [n] expires: it leaves the pending list and
    its callback [self.unblock_ip(ip)] runs. *)
Definition fire (env : Env) (n : nat) : Py (option string) := λ w,
  match timers w !! n with
  | None => (Ok None, w)
  | Some t =>
      unblock_ip (target t) env (args t)
        {| BLOCKED_IP_CACHE := BLOCKED_IP_CACHE w; BLOCK_FILE := BLOCK_FILE w;
           timers := delete n (timers w); calls := calls w; stdout := stdout w |}
  end.

(** ** Observations *)

(** [contains(address)] of the registry. *)
Definition contains (ip_address : string) (w : World) : bool :=
  bool_decide (MStr ip_address ∈ BLOCKED_IP_CACHE w).

(** The members a restart would find in the durable file. *)
Definition mirror (env : Env) (w : World) : gset member :=
  BLOCKED_IP_CACHE (snd (restart env w)).

(** The status that reports a performed block, per backend. *)
Definition blocked_status (b : Backend) (duration : Z) : string :=
  match b with
  | Windows | Linux => IP_BLOCKED_FOR duration
  | SDN => SDN_BLOCK_PUSHED_FOR duration
  end.

(** The one-shot timer [block_ip] starts, per backend; [LinuxIPTables]
    starts none. *)
Definition expiry_timer (b : Backend) (ip_address : string) (duration : Z)
  : list Timer :=
  match b with
  | Windows => [ {| interval := duration; target := Windows; args := ip_address;
                    daemon := Some true |} ]
  | Linux => []
  | SDN => [ {| interval := duration; target := SDN; args := ip_address;
                daemon := None |} ]
  end.

(** The world [save_blocked_cache] leaves behind. *)
Definition persisted (env : Env) (w : World) : World :=
  snd (save_blocked_cache env w).

(** Both steps of the durable write go through. *)
Definition writes_ok (env : Env) : Prop :=
  open_w_error env = None ∧ write_error env = None.

(** [os.system(cmd)] runs the command and returns [status]. *)
Definition shell_returns (env : Env) (cmd : string) (status : Z) : Prop :=
  has_nul cmd = false ∧ os_system_outcome env cmd = Exit status.

(** [os.system(cmd)] raises [e]. *)
Definition shell_raises (env : Env) (cmd : string) (e : exn) : Prop :=
  (has_nul cmd = true ∧ e = ValueError "embedded null byte")
  ∨ (has_nul cmd = false ∧ os_system_outcome env cmd = SysRaises e).

(** The install step of [block_ip] succeeds: the command exits with status
    0, or [requests] is there and the POST comes back. *)
Definition install_succeeds (b : Backend) (env : Env) (ip_address : string)
  : Prop :=
  match b with
  | Windows => shell_returns env (WindowsFirewall.add_rule_cmd ip_address) 0
  | Linux => shell_returns env (LinuxIPTables.append_cmd ip_address) 0
  | SDN => requests_importable env = true ∧ requests_post_error env = None
  end.

(** The removal command of [unblock_ip]; [SDNController] has none. *)
Definition removal_cmd (b : Backend) (ip_address : string) : option string :=
  match b with
  | Windows => Some (WindowsFirewall.delete_rule_cmd ip_address)
  | Linux => Some (LinuxIPTables.delete_cmd ip_address)
  | SDN => None
  end.

(** The removal command of [unblock_ip], where the backend has one, runs and
    returns some exit status. *)
Definition removal_returns (b : Backend) (env : Env) (ip_address : string)
  : Prop :=
  match removal_cmd b ip_address with
  | Some cmd => ∃ s, shell_returns env cmd s
  | None => True
  end.


(** [block_ip] started a one-shot timer that calls [unblock_ip(ip_address)]
    of the same backend after [duration] seconds. *)
Definition schedules_unblock (b : Backend) (ip_address : string) (duration : Z)
  (w w' : World) : Prop :=
  ∃ t, timers w' = (timers w ++ [t])%list
       ∧ interval t = duration ∧ target t = b ∧ args t = ip_address.

(** File content that is not a JSON array. *)
Definition not_an_array (c : file_content) : bool :=
  match c with
  | Unreadable | Malformed | Empty => true
  | Document j => negb (is_list j)
  end.

(** The registry after the addresses of [l] went in one after the other. *)
Definition registry_of (l : list string) : World :=
  foldl (λ w ip_address, snd (cache_add (MStr ip_address) w)) (boot None) l.

(** ** Concrete environments and inputs *)

Definition make_env (status : Z) (post_error open_error : option exn) : Env :=
  {| os_system_outcome := λ _, Exit status;
     requests_importable := true;
     requests_post_error := post_error;
     open_w_error := open_error;
     write_error := None;
     makedirs_error := None;
     iteration_order := elements;
     iteration_order_perm := λ X, reflexivity (elements X) |}.

(** Every command exits with status 0, the controller answers, the file can
    be written. *)
Definition env_ok : Env := make_env 0 None None.

(** Every command exits with status 1. *)
Definition env_exit1 : Env := make_env 1 None None.

(** The SDN controller cannot be reached. *)
Definition env_offline : Env :=
  make_env 0 (Some (RequestException "connection refused")) None.

(** The file cannot be opened for writing. *)
Definition env_readonly : Env :=
  make_env 0 None (Some (OSError "Permission denied")).

Definition attacker : string := "10.0.0.5".

(** An address string with an embedded null character. *)
Definition attacker_nul : string := "10.0.0.5" +:+ String "000"%char EmptyString.

(** A world in which [attacker] is blocked (through [WindowsFirewall]). *)
Definition world_blocked : World :=
  snd (block_ip Windows env_ok attacker 60 (boot None)).


(** ** Runs of the subsystem *)

(** What can happen to the module after start-up: a caller blocks or unblocks
    through some backend, or a pending timer expires. *)
Inductive request :=
| Block (b : Backend) (ip_address : string) (duration : Z)
| Unblock (b : Backend) (ip_address : string)
| Expire (n : nat).

Definition step (env : Env) (r : request) : Py (option string) :=
  match r with
  | Block b ip_address duration => block_ip b env ip_address duration
  | Unblock b ip_address => unblock_ip b env ip_address
  | Expire n => fire env n
  end.

(** The world after a sequence of requests, each with the environment it
    meets.  A request that raises ends there (in its caller or in its timer
    thread); the module state it leaves is the one the next request finds. *)
Fixpoint run (trace : list (Env * request)) (w : World) : World :=
  match trace with
  | [] => w
  | (env, r) :: rest => run rest (snd (step env r w))
  end.

(** The outbound call with which [block_ip] installs a block. *)
Definition install_call (b : Backend) (ip_address : string) : call :=
  match b with
  | Windows => Shell (WindowsFirewall.add_rule_cmd ip_address)
  | Linux => Shell (LinuxIPTables.append_cmd ip_address)
  | SDN => HttpPost SDNController.SDN_CONTROLLER_URL
             (SDNController.payload ip_address) 3
  end.

(** [os.system(cmd)] runs the command and returns, with whatever status. *)
Definition shell_ok (env : Env) (cmd : string) : bool :=
  negb (has_nul cmd)
  && match os_system_outcome env cmd with
     | Exit _ => true
     | SysRaises _ => false
     end.

(** The exception [os.system(cmd)] raises, if it raises. *)
Definition shell_error (env : Env) (cmd : string) : option exn :=
  if has_nul cmd then Some (ValueError "embedded null byte")
  else match os_system_outcome env cmd with
       | Exit _ => None
       | SysRaises e => Some e
       end.

(** The members [BLOCKED_IP_CACHE.update] gets to add before it meets an
    unhashable element. *)
Fixpoint hashable_prefix (items : list json) : list member :=
  match items with
  | [] => []
  | x :: rest =>
      match hashable x with
      | Some m => m :: hashable_prefix rest
      | None => []
      end
  end.

(** The file opens for writing, the write then fails. *)
Definition env_disk_full : Env :=
  {| os_system_outcome := λ _, Exit 0;
     requests_importable := true;
     requests_post_error := None;
     open_w_error := None;
     write_error := Some (OSError "No space left on device");
     makedirs_error := None;
     iteration_order := elements;
     iteration_order_perm := λ X, reflexivity (elements X) |}.

(** The directory of the file cannot be created. *)
Definition env_no_directory : Env :=
  {| os_system_outcome := λ _, Exit 0;
     requests_importable := true;
     requests_post_error := None;
     open_w_error := None;
     write_error := None;
     makedirs_error := Some (OSError "Permission denied");
     iteration_order := elements;
     iteration_order_perm := λ X, reflexivity (elements X) |}.

(** [requests] is not installed. *)
Definition env_no_requests : Env :=
  {| os_system_outcome := λ _, Exit 0;
     requests_importable := false;
     requests_post_error := None;
     open_w_error := None;
     write_error := None;
     makedirs_error := None;
     iteration_order := elements;
     iteration_order_perm := λ X, reflexivity (elements X) |}.

(** * Properties *)

(** ** The primitives *)

Ltac py_unfold :=
  unfold print, cache_contains, cache_add, cache_remove, timer_start in *;
  unfold mbind, Py_bind, mret, Py_ret, try_except, gets, modify, raise in *.

Lemma save_blocked_cache_eq env w :
  save_blocked_cache env w =
  (Ok tt,
   match open_w_error env, write_error env with
   | Some _, _ => w
   | None, Some _ => set_file (Some Malformed) w
   | None, None =>
       set_file (Some (Document (cache_json env (BLOCKED_IP_CACHE w)))) w
   end).
Proof.
  unfold save_blocked_cache, open_w, json_dump. py_unfold.
  destruct (open_w_error env), (write_error env); reflexivity.
Qed.

Lemma save_blocked_cache_ok env w :
  writes_ok env →
  save_blocked_cache env w =
  (Ok tt, set_file (Some (Document (cache_json env (BLOCKED_IP_CACHE w)))) w).
Proof. intros [Ho Hw]. rewrite save_blocked_cache_eq, Ho, Hw. reflexivity. Qed.

Lemma save_blocked_cache_frame env w :
  let w' := snd (save_blocked_cache env w) in
  BLOCKED_IP_CACHE w' = BLOCKED_IP_CACHE w ∧ timers w' = timers w
  ∧ calls w' = calls w ∧ stdout w' = stdout w.
Proof.
  rewrite save_blocked_cache_eq.
  destruct (open_w_error env), (write_error env); simpl; auto.
Qed.

Lemma os_system_returns env cmd s w :
  shell_returns env cmd s →
  os_system env cmd w = (Ok s, push_call (Shell cmd) w).
Proof.
  intros [Hn Ho]. unfold os_system. rewrite Hn. py_unfold. rewrite Ho.
  reflexivity.
Qed.

Lemma os_system_raises env cmd e w :
  shell_raises env cmd e →
  ∃ w1, os_system env cmd w = (Raise e, w1)
        ∧ BLOCKED_IP_CACHE w1 = BLOCKED_IP_CACHE w
        ∧ BLOCK_FILE w1 = BLOCK_FILE w
        ∧ timers w1 = timers w
        ∧ stdout w1 = stdout w.
Proof.
  intros [[Hn ->] | [Hn Ho]]; unfold os_system; rewrite Hn; py_unfold.
  - exists w. auto.
  - rewrite Ho. exists (push_call (Shell cmd) w). auto.
Qed.

Lemma hashable_member_json m : hashable (member_json m) = Some m.
Proof. destruct m; reflexivity. Qed.

Lemma cache_update_members l w :
  cache_update (member_json <$> l) w
  = (Ok tt, set_cache (list_to_set l ∪ BLOCKED_IP_CACHE w) w).
Proof.
  revert w. induction l as [| m l IH]; intros w.
  - destruct w as [X f t c o]. cbn. unfold set_cache. cbn.
    do 2 f_equal. set_solver.
  - rewrite fmap_cons. cbn [cache_update]. rewrite hashable_member_json.
    py_unfold. rewrite IH. unfold set_cache. cbn. do 2 f_equal. set_solver.
Qed.

Lemma list_to_set_iteration_order env X :
  list_to_set (iteration_order env X) = X.
Proof.
  apply set_eq. intros x.
  rewrite elem_of_list_to_set, (iteration_order_perm env X).
  apply elem_of_elements.
Qed.

(** Reloading a file that [save_blocked_cache] wrote gives the set back. *)
Lemma restart_document env env' X w :
  BLOCK_FILE w = Some (Document (cache_json env X)) →
  restart env' w = (Ok tt, set_cache X (boot (BLOCK_FILE w))).
Proof.
  intros Hf. unfold restart, module_init, makedirs, load_blocked_cache, json_load.
  rewrite Hf. py_unfold. simpl. unfold cache_json.
  rewrite cache_update_members. simpl.
  rewrite list_to_set_iteration_order. unfold set_cache, boot. simpl.
  do 2 f_equal. set_solver.
Qed.

Lemma save_blocked_cache_persisted env w :
  save_blocked_cache env w = (Ok tt, persisted env w).
Proof. unfold persisted. rewrite save_blocked_cache_eq. reflexivity. Qed.

Lemma persisted_frame env w :
  BLOCKED_IP_CACHE (persisted env w) = BLOCKED_IP_CACHE w
  ∧ timers (persisted env w) = timers w
  ∧ calls (persisted env w) = calls w
  ∧ stdout (persisted env w) = stdout w.
Proof. apply save_blocked_cache_frame. Qed.

Lemma persisted_file env w :
  writes_ok env →
  BLOCK_FILE (persisted env w)
  = Some (Document (cache_json env (BLOCKED_IP_CACHE w))).
Proof. intros H. unfold persisted. rewrite save_blocked_cache_ok; done. Qed.

(** ** The backends, case by case *)

Ltac run :=
  unfold block_ip, unblock_ip, WindowsFirewall.block_ip,
    WindowsFirewall.unblock_ip, LinuxIPTables.block_ip,
    LinuxIPTables.unblock_ip, SDNController.block_ip,
    SDNController.unblock_ip, SDNController.import_requests,
    SDNController.requests_post, os_system in *;
  py_unfold; cbn beta iota in *.

Lemma windows_block_ip_blocked env ip d w :
  MStr ip ∈ BLOCKED_IP_CACHE w →
  WindowsFirewall.block_ip env ip d w = (Ok (Some (IP_ALREADY_BLOCKED_FOR d)), w).
Proof. intros H. run. rewrite bool_decide_eq_true_2; done. Qed.

Lemma linux_block_ip_blocked env ip d w :
  MStr ip ∈ BLOCKED_IP_CACHE w →
  LinuxIPTables.block_ip env ip d w = (Ok (Some (IP_ALREADY_BLOCKED_FOR d)), w).
Proof. intros H. run. rewrite bool_decide_eq_true_2; done. Qed.

Lemma windows_unblock_ip_absent env ip w :
  MStr ip ∉ BLOCKED_IP_CACHE w →
  WindowsFirewall.unblock_ip env ip w = (Ok None, w).
Proof. intros H. run. rewrite bool_decide_eq_false_2; done. Qed.

Lemma windows_block_ip_fresh env ip d s w :
  MStr ip ∉ BLOCKED_IP_CACHE w →
  shell_returns env (WindowsFirewall.add_rule_cmd ip) s →
  WindowsFirewall.block_ip env ip d w
  = (Ok (Some (IP_BLOCKED_FOR d)),
     push_timer {| interval := d; target := Windows; args := ip;
                   daemon := Some true |}
       (persisted env
          (set_cache ({[MStr ip]} ∪ BLOCKED_IP_CACHE w)
             (push_call (Shell (WindowsFirewall.add_rule_cmd ip))
                (push_line (LineBlocking ip d) w))))).
Proof.
  intros H [Hn Ho]. run. rewrite bool_decide_eq_false_2 by done.
  rewrite Hn, Ho. cbn. rewrite save_blocked_cache_persisted. reflexivity.
Qed.

Lemma windows_block_ip_raises env ip d e w :
  MStr ip ∉ BLOCKED_IP_CACHE w →
  shell_raises env (WindowsFirewall.add_rule_cmd ip) e →
  ∃ w', WindowsFirewall.block_ip env ip d w = (Ok (Some BLOCK_FAILED), w')
        ∧ BLOCKED_IP_CACHE w' = BLOCKED_IP_CACHE w
        ∧ BLOCK_FILE w' = BLOCK_FILE w
        ∧ timers w' = timers w
        ∧ stdout w' = (stdout w ++ [LineBlocking ip d; LineBlockError e])%list.
Proof.
  intros H [[Hn ->] | [Hn Ho]]; run; rewrite bool_decide_eq_false_2 by done;
    rewrite Hn; [| rewrite Ho]; cbn; eexists; (split; [reflexivity |]);
    cbn; rewrite <- ?app_assoc; auto.
Qed.

Lemma linux_block_ip_fresh env ip d s w :
  MStr ip ∉ BLOCKED_IP_CACHE w →
  shell_returns env (LinuxIPTables.append_cmd ip) s →
  LinuxIPTables.block_ip env ip d w
  = (Ok (Some (IP_BLOCKED_FOR d)),
     persisted env
       (set_cache ({[MStr ip]} ∪ BLOCKED_IP_CACHE w)
          (push_call (Shell (LinuxIPTables.append_cmd ip)) w))).
Proof.
  intros H [Hn Ho]. run. rewrite bool_decide_eq_false_2 by done.
  rewrite Hn, Ho. cbn. rewrite save_blocked_cache_persisted. reflexivity.
Qed.

Lemma sdn_block_ip_eq env ip d w :
  requests_importable env = true →
  SDNController.block_ip env ip d w
  = (Ok (Some (SDN_BLOCK_PUSHED_FOR d)),
     push_timer {| interval := d; target := SDN; args := ip; daemon := None |}
       (persisted env
          (set_cache ({[MStr ip]} ∪ BLOCKED_IP_CACHE w)
             (push_call
                (HttpPost SDNController.SDN_CONTROLLER_URL
                   (SDNController.payload ip) 3)
                (push_line (LineSdnPush ip) w))))).
Proof.
  intros Hi. run. rewrite Hi.
  destruct (requests_post_error env); cbn;
    rewrite save_blocked_cache_persisted; reflexivity.
Qed.

Lemma windows_unblock_ip_returns env ip s w :
  MStr ip ∈ BLOCKED_IP_CACHE w →
  shell_returns env (WindowsFirewall.delete_rule_cmd ip) s →
  WindowsFirewall.unblock_ip env ip w
  = (Ok None,
     persisted env
       (set_cache (BLOCKED_IP_CACHE w ∖ {[MStr ip]})
          (push_call (Shell (WindowsFirewall.delete_rule_cmd ip))
             (push_line (LineUnblocking ip) w)))).
Proof.
  intros H [Hn Ho]. run. rewrite bool_decide_eq_true_2 by done.
  rewrite Hn, Ho. cbn. rewrite bool_decide_eq_true_2 by done.
  rewrite save_blocked_cache_persisted. reflexivity.
Qed.


Lemma linux_unblock_ip_returns env ip s w :
  MStr ip ∈ BLOCKED_IP_CACHE w →
  shell_returns env (LinuxIPTables.delete_cmd ip) s →
  LinuxIPTables.unblock_ip env ip w
  = (Ok None,
     persisted env
       (set_cache (BLOCKED_IP_CACHE w ∖ {[MStr ip]})
          (push_call (Shell (LinuxIPTables.delete_cmd ip)) w))).
Proof.
  intros H [Hn Ho]. run. rewrite Hn, Ho. cbn.
  rewrite bool_decide_eq_true_2 by done.
  rewrite save_blocked_cache_persisted. reflexivity.
Qed.

Lemma linux_unblock_ip_absent env ip s w :
  MStr ip ∉ BLOCKED_IP_CACHE w →
  shell_returns env (LinuxIPTables.delete_cmd ip) s →
  LinuxIPTables.unblock_ip env ip w
  = (Raise (KeyError ip), push_call (Shell (LinuxIPTables.delete_cmd ip)) w).
Proof.
  intros H [Hn Ho]. run. rewrite Hn, Ho. cbn.
  rewrite bool_decide_eq_false_2 by done. reflexivity.
Qed.

Lemma sdn_unblock_ip_present env ip w :
  MStr ip ∈ BLOCKED_IP_CACHE w →
  SDNController.unblock_ip env ip w
  = (Ok None,
     persisted env
       (set_cache (BLOCKED_IP_CACHE w ∖ {[MStr ip]})
          (push_line (LineSdnDelete ip) w))).
Proof.
  intros H. run. cbn. rewrite bool_decide_eq_true_2 by done.
  rewrite save_blocked_cache_persisted. reflexivity.
Qed.

Lemma sdn_unblock_ip_absent env ip w :
  MStr ip ∉ BLOCKED_IP_CACHE w →
  SDNController.unblock_ip env ip w
  = (Raise (KeyError ip), push_line (LineSdnDelete ip) w).
Proof.
  intros H. run. cbn. rewrite bool_decide_eq_false_2 by done. reflexivity.
Qed.

(** ** Persistence *)

Lemma persisted_mirrors env w :
  writes_ok env →
  BLOCK_FILE (persisted env w)
  = Some (Document (cache_json env (BLOCKED_IP_CACHE (persisted env w)))).
Proof.
  intros H. rewrite persisted_file by done.
  destruct (persisted_frame env w) as [-> _]. reflexivity.
Qed.

Lemma mirror_document env env' w :
  BLOCK_FILE w = Some (Document (cache_json env (BLOCKED_IP_CACHE w))) →
  mirror env' w = BLOCKED_IP_CACHE w.
Proof.
  intros H. unfold mirror. rewrite (restart_document env env' _ w H).
  reflexivity.
Qed.

(** Whatever a call does, a changed registry has been written out. *)
Ltac persist_cases :=
  run;
  repeat match goal with
         | |- context [bool_decide ?P] => destruct (bool_decide P)
         | |- context [has_nul ?c] => destruct (has_nul c)
         | |- context [os_system_outcome ?e ?c] => destruct (os_system_outcome e c)
         | |- context [requests_importable ?e] => destruct (requests_importable e)
         | |- context [requests_post_error ?e] => destruct (requests_post_error e)
         | _ => progress cbn
         | _ => rewrite save_blocked_cache_persisted
         end.

Lemma block_ip_persists b env ip d w :
  writes_ok env →
  let w' := snd (block_ip b env ip d w) in
  BLOCKED_IP_CACHE w' = BLOCKED_IP_CACHE w
  ∨ BLOCK_FILE w' = Some (Document (cache_json env (BLOCKED_IP_CACHE w'))).
Proof.
  intros H. destruct b; persist_cases; auto; right; by apply persisted_mirrors.
Qed.

Lemma unblock_ip_persists b env ip w :
  writes_ok env →
  let w' := snd (unblock_ip b env ip w) in
  BLOCKED_IP_CACHE w' = BLOCKED_IP_CACHE w
  ∨ BLOCK_FILE w' = Some (Document (cache_json env (BLOCKED_IP_CACHE w'))).
Proof.
  intros H. destruct b; persist_cases; auto; right; by apply persisted_mirrors.
Qed.

Lemma registry_of_cache l :
  BLOCKED_IP_CACHE (registry_of l) = list_to_set (MStr <$> l).
Proof.
  unfold registry_of.
  assert (∀ w, BLOCKED_IP_CACHE
                 (foldl (λ w ip_address, snd (cache_add (MStr ip_address) w)) w l)
               = list_to_set (MStr <$> l) ∪ BLOCKED_IP_CACHE w) as Hgen.
  { induction l as [| a l IH]; intros w.
    - cbn. set_solver.
    - cbn [foldl]. rewrite IH, fmap_cons. cbn. set_solver. }
  rewrite Hgen. cbn. set_solver.
Qed.

(** ** Blocking *)

(** The two backends that consult the registry leave an already blocked
    address alone: the status carries the requested duration and the world is
    the one they were given. *)
Lemma block_ip_already_blocked b env ip d w :
  b ≠ SDN →
  MStr ip ∈ BLOCKED_IP_CACHE w →
  block_ip b env ip d w = (Ok (Some (IP_ALREADY_BLOCKED_FOR d)), w).
Proof.
  intros Hb H. destruct b; [| | done].
  - by apply windows_block_ip_blocked.
  - by apply linux_block_ip_blocked.
Qed.

(** C1, at [SDNController.block_ip] on an address that is already in the
    registry: the method has no membership test, so it answers
    [SDN_BLOCK_PUSHED_FOR_30s] instead of the already-blocked status, posts
    the flow rule again, rewrites the file and starts a second timer next to
    the pending one. *)
Theorem sdn_block_ip_on_blocked_address :
  contains attacker world_blocked = true
  ∧ fst (block_ip SDN env_ok attacker 30 world_blocked)
    = Ok (Some (SDN_BLOCK_PUSHED_FOR 30))
  ∧ calls (snd (block_ip SDN env_ok attacker 30 world_blocked))
    = (calls world_blocked
       ++ [HttpPost SDNController.SDN_CONTROLLER_URL
             (SDNController.payload attacker) 3])%list
  ∧ timers (snd (block_ip SDN env_ok attacker 30 world_blocked))
    = (timers world_blocked
       ++ [{| interval := 30; target := SDN; args := attacker;
              daemon := None |}])%list.
Proof. vm_compute. repeat split. Qed.

(** C2 as stated fails at [LinuxIPTables]: a block of a fresh address whose
    command exits with status 0 returns the blocked status, and no timer has
    been started.  It also fails where the file cannot be written: the block
    through [WindowsFirewall] succeeds all the same, and a restart does not
    find the address. *)
Lemma linux_block_ip_starts_no_timer :
  (MStr attacker ∉ BLOCKED_IP_CACHE (boot None))
  ∧ install_succeeds Linux env_ok attacker
  ∧ fst (block_ip Linux env_ok attacker 60 (boot None))
    = Ok (Some (IP_BLOCKED_FOR 60))
  ∧ ¬ schedules_unblock Linux attacker 60 (boot None)
        (snd (block_ip Linux env_ok attacker 60 (boot None)))
  ∧ install_succeeds Windows env_readonly attacker
  ∧ fst (block_ip Windows env_readonly attacker 60 (boot None))
    = Ok (Some (IP_BLOCKED_FOR 60))
  ∧ BLOCK_FILE (snd (block_ip Windows env_readonly attacker 60 (boot None)))
    = None
  ∧ contains attacker
      (snd (restart env_ok
              (snd (block_ip Windows env_readonly attacker 60 (boot None)))))
    = false.
Proof.
  split; [apply not_elem_of_empty |].
  split; [split; reflexivity |].
  split; [vm_compute; reflexivity |].
  split; [intros [t [Ht _]]; vm_compute in Ht; discriminate Ht |].
  split; [split; reflexivity |].
  repeat split; vm_compute; reflexivity.
Qed.

(** C2, amended.  For an address that is not in the registry and an install
    step that succeeds, [block_ip] returns the blocked status of its backend,
    the address is in the registry afterwards, [WindowsFirewall] and
    [SDNController] have started one timer that calls [unblock_ip] on the
    address after [duration] seconds while [LinuxIPTables] has started none,
    and, when the write of the file goes through, the file holds the registry
    and a restart finds the address. *)
Theorem block_ip_on_fresh_address b env ip d w :
  MStr ip ∉ BLOCKED_IP_CACHE w →
  install_succeeds b env ip →
  fst (block_ip b env ip d w) = Ok (Some (blocked_status b d))
  ∧ BLOCKED_IP_CACHE (snd (block_ip b env ip d w))
    = {[MStr ip]} ∪ BLOCKED_IP_CACHE w
  ∧ timers (snd (block_ip b env ip d w))
    = (timers w ++ expiry_timer b ip d)%list
  ∧ (b ≠ Linux → schedules_unblock b ip d w (snd (block_ip b env ip d w)))
  ∧ contains ip (snd (block_ip b env ip d w)) = true
  ∧ (writes_ok env →
     BLOCK_FILE (snd (block_ip b env ip d w))
     = Some (Document
               (cache_json env (BLOCKED_IP_CACHE (snd (block_ip b env ip d w)))))
     ∧ ∀ env', MStr ip ∈ mirror env' (snd (block_ip b env ip d w))).
Proof.
  intros Hfresh Hok.
  assert (∀ out : result (option string) * World,
            block_ip b env ip d w = out →
            ∃ w1, snd out
                  = match b with
                    | Linux => persisted env w1
                    | Windows | SDN =>
                        push_timer
                          (match b with
                           | Windows => {| interval := d; target := Windows;
                                           args := ip; daemon := Some true |}
                           | _ => {| interval := d; target := SDN; args := ip;
                                     daemon := None |}
                           end) (persisted env w1)
                    end
                  ∧ fst out = Ok (Some (blocked_status b d))
                  ∧ BLOCKED_IP_CACHE w1 = {[MStr ip]} ∪ BLOCKED_IP_CACHE w
                  ∧ timers w1 = timers w) as Hshape.
  { intros out <-. destruct b; cbn [block_ip install_succeeds] in *.
    - rewrite (windows_block_ip_fresh env ip d 0 w) by done.
      eexists; split; [reflexivity |]. cbn. auto.
    - rewrite (linux_block_ip_fresh env ip d 0 w) by done.
      eexists; split; [reflexivity |]. cbn. auto.
    - destruct Hok as [Hi _]. rewrite (sdn_block_ip_eq env ip d w) by done.
      eexists; split; [reflexivity |]. cbn. auto. }
  destruct (Hshape _ eq_refl) as (w1 & Hw & Hr & Hc & Ht).
  destruct (persisted_frame env w1) as (Hpc & Hpt & _ & _).
  assert (BLOCKED_IP_CACHE (snd (block_ip b env ip d w))
          = {[MStr ip]} ∪ BLOCKED_IP_CACHE w) as Hcache.
  { rewrite Hw. destruct b; cbn; congruence. }
  assert (BLOCK_FILE (snd (block_ip b env ip d w))
          = BLOCK_FILE (persisted env w1)) as Hfile.
  { rewrite Hw. destruct b; reflexivity. }
  split; [exact Hr |]. split; [exact Hcache |].
  split; [rewrite Hw; destruct b; cbn; rewrite ?Hpt, Ht; try reflexivity;
          by rewrite app_nil_r |].
  split.
  { intros Hb. rewrite Hw. unfold schedules_unblock.
    destruct b; [| done |]; cbn; rewrite Hpt, Ht; eexists; eauto. }
  split.
  { unfold contains. apply bool_decide_eq_true_2. rewrite Hcache. set_solver. }
  intros Hwr.
  assert (BLOCK_FILE (snd (block_ip b env ip d w))
          = Some (Document
                    (cache_json env
                       (BLOCKED_IP_CACHE (snd (block_ip b env ip d w))))))
    as Hdoc.
  { rewrite Hfile, Hcache, <- Hc, <- Hpc. by apply persisted_mirrors. }
  split; [exact Hdoc |].
  intros env'. rewrite (mirror_document env env' _ Hdoc), Hcache. set_solver.
Qed.

Lemma block_ip_on_fresh_address_witness :
  (MStr attacker ∉ BLOCKED_IP_CACHE (boot None))
  ∧ install_succeeds Windows env_ok attacker
  ∧ fst (block_ip Windows env_ok attacker 60 (boot None))
    = Ok (Some (blocked_status Windows 60)).
Proof.
  assert (MStr attacker ∉ BLOCKED_IP_CACHE (boot None)) as H1
    by apply not_elem_of_empty.
  assert (install_succeeds Windows env_ok attacker) as H2
    by (split; reflexivity).
  split; [exact H1 |]. split; [exact H2 |].
  exact (proj1 (block_ip_on_fresh_address Windows env_ok attacker 60 (boot None) H1 H2)).
Defined.

(** ** Unblocking an address that is not blocked *)

(** [WindowsFirewall.unblock_ip] returns at once on an address that is not in
    the registry; a second call after a removal is therefore the same no-op. *)
Lemma windows_unblock_ip_twice env env' ip s w :
  MStr ip ∈ BLOCKED_IP_CACHE w →
  shell_returns env (WindowsFirewall.delete_rule_cmd ip) s →
  unblock_ip Windows env' ip (snd (unblock_ip Windows env ip w))
  = (Ok None, snd (unblock_ip Windows env ip w)).
Proof.
  intros H Hs. cbn [unblock_ip].
  rewrite (windows_unblock_ip_returns env ip s w) by done.
  apply windows_unblock_ip_absent. cbn [snd].
  destruct (persisted_frame env
              (set_cache (BLOCKED_IP_CACHE w ∖ {[MStr ip]})
                 (push_call (Shell (WindowsFirewall.delete_rule_cmd ip))
                    (push_line (LineUnblocking ip) w)))) as [-> _].
  cbn. set_solver.
Qed.

(** C3, at [LinuxIPTables.unblock_ip] on an address that is not in the
    registry: the method has no membership test, so the [iptables -D] command
    is issued and [BLOCKED_IP_CACHE.remove] raises [KeyError] to the caller. *)
Theorem linux_unblock_ip_on_absent_address :
  contains attacker (boot None) = false
  ∧ unblock_ip Linux env_ok attacker (boot None)
    = (Raise (KeyError attacker),
       push_call (Shell "iptables -D INPUT -s 10.0.0.5 -j DROP") (boot None)).
Proof. split; vm_compute; reflexivity. Qed.

(** C5, at [SDNController.unblock_ip] on an address that is not in the
    registry: [KeyError] leaves the method, nothing catches it. *)
Theorem sdn_unblock_ip_on_absent_address :
  contains attacker (boot None) = false
  ∧ fst (unblock_ip SDN env_ok attacker (boot None)) = Raise (KeyError attacker)
  ∧ stdout (snd (unblock_ip SDN env_ok attacker (boot None)))
    = [LineSdnDelete attacker].
Proof. repeat split; vm_compute; reflexivity. Qed.

(** ** A failing install *)

(** C4, at [WindowsFirewall.block_ip] when the install command fails with
    exit status 1: the method has a branch for a failed install (it prints
    "Could not block IP" and returns [BLOCK_FAILED]) but never looks at what
    [os.system] returns, so the failed install is answered with
    [IP_BLOCKED_FOR_60s], the address is put in the registry and in the file,
    and the expiry timer runs. *)
Theorem windows_block_ip_ignores_exit_status :
  shell_returns env_exit1 (WindowsFirewall.add_rule_cmd attacker) 1
  ∧ fst (block_ip Windows env_exit1 attacker 60 (boot None))
    = Ok (Some (IP_BLOCKED_FOR 60))
  ∧ fst (block_ip Windows env_exit1 attacker 60 (boot None))
    ≠ Ok (Some BLOCK_FAILED)
  ∧ contains attacker (snd (block_ip Windows env_exit1 attacker 60 (boot None)))
    = true
  ∧ BLOCK_FILE (snd (block_ip Windows env_exit1 attacker 60 (boot None)))
    = Some (Document (JArr [JStr attacker]))
  ∧ timers (snd (block_ip Windows env_exit1 attacker 60 (boot None)))
    = [{| interval := 60; target := Windows; args := attacker;
          daemon := Some true |}]
  ∧ stdout (snd (block_ip Windows env_exit1 attacker 60 (boot None)))
    = [LineBlocking attacker 60].
Proof. repeat split; vm_compute; (reflexivity || discriminate). Qed.

(** For comparison, the branch the method has for a failed install is taken
    when the call itself raises: on an address that is not in the registry,
    [block_ip] then returns [BLOCK_FAILED], the registry and the file are as
    before, no timer has been started, the error is printed, and nothing is
    raised to the caller. *)
Lemma windows_block_ip_install_raises env ip d e w :
  MStr ip ∉ BLOCKED_IP_CACHE w →
  shell_raises env (WindowsFirewall.add_rule_cmd ip) e →
  fst (block_ip Windows env ip d w) = Ok (Some BLOCK_FAILED)
  ∧ BLOCKED_IP_CACHE (snd (block_ip Windows env ip d w)) = BLOCKED_IP_CACHE w
  ∧ BLOCK_FILE (snd (block_ip Windows env ip d w)) = BLOCK_FILE w
  ∧ timers (snd (block_ip Windows env ip d w)) = timers w
  ∧ stdout (snd (block_ip Windows env ip d w))
    = (stdout w ++ [LineBlocking ip d; LineBlockError e])%list.
Proof.
  intros H He. cbn [block_ip].
  destruct (windows_block_ip_raises env ip d e w H He) as (w' & -> & Hrest).
  cbn [fst snd]. auto.
Qed.

(** ** The durable mirror *)

(** C6 as stated fails when the write of the file fails: the block of a
    second address succeeds and changes the in-memory set, the swallowed
    write leaves the file truncated, and what a restart reads is empty while
    the set holds two addresses. *)
Lemma failed_persist_leaves_file_behind :
  fst (block_ip Windows env_disk_full "10.0.0.9" 5 world_blocked)
  = Ok (Some (IP_BLOCKED_FOR 5))
  ∧ BLOCKED_IP_CACHE (snd (block_ip Windows env_disk_full "10.0.0.9" 5
                             world_blocked))
    = {[MStr "10.0.0.9"; MStr attacker]}
  ∧ BLOCK_FILE (snd (block_ip Windows env_disk_full "10.0.0.9" 5 world_blocked))
    = Some Malformed
  ∧ mirror env_ok (snd (block_ip Windows env_disk_full "10.0.0.9" 5
                          world_blocked))
    = ∅
  ∧ mirror env_ok (snd (block_ip Windows env_disk_full "10.0.0.9" 5
                          world_blocked))
    ≠ BLOCKED_IP_CACHE (snd (block_ip Windows env_disk_full "10.0.0.9" 5
                               world_blocked)).
Proof.
  assert (BLOCKED_IP_CACHE
            (snd (block_ip Windows env_disk_full "10.0.0.9" 5 world_blocked))
          = {[MStr "10.0.0.9"; MStr attacker]}) as Hc
    by (vm_compute; reflexivity).
  assert (mirror env_ok
            (snd (block_ip Windows env_disk_full "10.0.0.9" 5 world_blocked))
          = ∅) as Hm
    by (vm_compute; reflexivity).
  split; [vm_compute; reflexivity |]. split; [exact Hc |].
  split; [vm_compute; reflexivity |]. split; [exact Hm |].
  rewrite Hm, Hc. set_solver.
Qed.

(** C6, amended.  A persist opens the file for writing, which truncates it,
    and dumps the whole in-memory set.  When the write goes through, the file
    afterwards holds exactly the members of the set, whatever it held before
    (nothing of the earlier content is kept or merged); every [block_ip] and
    [unblock_ip] that changed the set ends with such a persist, so the file
    then holds exactly the set as it is after the call.  When the write does
    not go through, the error is swallowed and the file is what it was (the
    open failed) or incomplete (the write failed). *)
Theorem persist_is_full_overwrite env w :
  writes_ok env →
  (∀ old env',
     mirror env' (persisted env (set_file old w)) = BLOCKED_IP_CACHE w)
  ∧ (∀ b ip d env',
       BLOCKED_IP_CACHE (snd (block_ip b env ip d w)) ≠ BLOCKED_IP_CACHE w →
       mirror env' (snd (block_ip b env ip d w))
       = BLOCKED_IP_CACHE (snd (block_ip b env ip d w)))
  ∧ (∀ b ip env',
       BLOCKED_IP_CACHE (snd (unblock_ip b env ip w)) ≠ BLOCKED_IP_CACHE w →
       mirror env' (snd (unblock_ip b env ip w))
       = BLOCKED_IP_CACHE (snd (unblock_ip b env ip w)))
  ∧ (∀ env0 w0,
       fst (save_blocked_cache env0 w0) = Ok tt
       ∧ (open_w_error env0 ≠ None →
          BLOCK_FILE (persisted env0 w0) = BLOCK_FILE w0)
       ∧ (open_w_error env0 = None → write_error env0 ≠ None →
          BLOCK_FILE (persisted env0 w0) = Some Malformed)).
Proof.
  intros H. split.
  { intros old env'.
    pose proof (persisted_mirrors env (set_file old w) H) as Hdoc.
    rewrite (mirror_document env env' _ Hdoc).
    by destruct (persisted_frame env (set_file old w)) as [-> _]. }
  split.
  { intros b ip d env' Hne.
    destruct (block_ip_persists b env ip d w H) as [Heq | Hdoc]; [done |].
    by apply (mirror_document env). }
  split.
  { intros b ip env' Hne.
    destruct (unblock_ip_persists b env ip w H) as [Heq | Hdoc]; [done |].
    by apply (mirror_document env). }
  intros env0 w0. unfold persisted. rewrite save_blocked_cache_eq.
  destruct (open_w_error env0), (write_error env0); cbn; by repeat split.
Qed.

Lemma persist_is_full_overwrite_witness :
  writes_ok env_ok
  ∧ mirror env_ok
      (persisted env_ok
         (set_file (Some (Document (JArr [JStr "192.168.1.7"]))) world_blocked))
    = BLOCKED_IP_CACHE world_blocked.
Proof.
  assert (writes_ok env_ok) as H by (split; reflexivity).
  split; [exact H |].
  exact (proj1 (persist_is_full_overwrite env_ok world_blocked H) _ env_ok).
Defined.

(** C7.  Persisting a registry and restarting on the file reproduces exactly
    its set: for any registry, and in particular for the registries obtained
    by inserting the same addresses in two different orders, which reload to
    the same set, the set of the addresses inserted. *)
Theorem persist_reload_roundtrip env env' w (l1 l2 : list string) :
  writes_ok env →
  fst (restart env' (persisted env w)) = Ok tt
  ∧ BLOCKED_IP_CACHE (snd (restart env' (persisted env w))) = BLOCKED_IP_CACHE w
  ∧ (l1 ≡ₚ l2 →
     BLOCKED_IP_CACHE (snd (restart env' (persisted env (registry_of l1))))
     = list_to_set (MStr <$> l1)
     ∧ BLOCKED_IP_CACHE (snd (restart env' (persisted env (registry_of l2))))
       = list_to_set (MStr <$> l1)).
Proof.
  intros H.
  assert (∀ w0, restart env' (persisted env w0)
                = (Ok tt, set_cache (BLOCKED_IP_CACHE w0)
                            (boot (BLOCK_FILE (persisted env w0))))) as Hre.
  { intros w0. pose proof (persisted_mirrors env w0 H) as Hdoc.
    rewrite (restart_document env env' _ _ Hdoc).
    by destruct (persisted_frame env w0) as [-> _]. }
  split; [by rewrite Hre |]. split; [by rewrite Hre |].
  intros Hperm. rewrite !Hre. cbn. rewrite !registry_of_cache.
  split; [reflexivity |].
  apply set_eq. intros x. rewrite !elem_of_list_to_set. by rewrite Hperm.
Qed.

Lemma persist_reload_roundtrip_witness :
  writes_ok env_ok
  ∧ ["10.0.0.5"; "10.0.0.9"; "192.168.1.7"] ≡ₚ ["192.168.1.7"; "10.0.0.5"; "10.0.0.9"]
  ∧ BLOCKED_IP_CACHE
      (snd (restart env_ok
              (persisted env_ok
                 (registry_of ["192.168.1.7"; "10.0.0.5"; "10.0.0.9"]))))
    = list_to_set (MStr <$> ["10.0.0.5"; "10.0.0.9"; "192.168.1.7"]).
Proof.
  assert (writes_ok env_ok) as H by (split; reflexivity).
  assert (["10.0.0.5"; "10.0.0.9"; "192.168.1.7"]
          ≡ₚ ["192.168.1.7"; "10.0.0.5"; "10.0.0.9"]) as Hp.
  { exact (Permutation_app_comm ["10.0.0.5"; "10.0.0.9"] ["192.168.1.7"]). }
  split; [exact H |]. split; [exact Hp |].
  exact (proj2 (proj2 (proj2 (persist_reload_roundtrip env_ok env_ok (boot None)
                                _ _ H)) Hp)).
Defined.

(** C8.  At start-up a file that cannot be read, that is not JSON, or whose
    JSON is not an array leaves the registry empty: module initialisation
    returns normally and the world is the fresh one. *)
Theorem load_discards_bad_content env c :
  not_an_array c = true →
  module_init env (boot (Some c)) = (Ok tt, boot (Some c)).
Proof.
  intros H. unfold module_init, makedirs, load_blocked_cache, json_load.
  py_unfold. cbn.
  destruct c as [| | j |]; try reflexivity.
  destruct j; try reflexivity. discriminate H.
Qed.

Lemma load_discards_bad_content_witness :
  not_an_array (Document (JStr "not a list")) = true
  ∧ module_init env_ok (boot (Some (Document (JStr "not a list"))))
    = (Ok tt, boot (Some (Document (JStr "not a list")))).
Proof.
  split; [reflexivity |].
  apply (load_discards_bad_content env_ok (Document (JStr "not a list"))).
  reflexivity.
Defined.

(** ** A failing removal *)

Lemma persisted_cache env w :
  BLOCKED_IP_CACHE (persisted env w) = BLOCKED_IP_CACHE w.
Proof. by destruct (persisted_frame env w) as [-> _]. Qed.




(** ** One registry for all backends *)

Lemma block_ip_reports_membership b env ip d w :
  fst (block_ip b env ip d w) = Ok (Some (blocked_status b d)) →
  MStr ip ∈ BLOCKED_IP_CACHE (snd (block_ip b env ip d w)).
Proof.
  destruct b; persist_cases; intros Hr; try discriminate Hr;
    rewrite persisted_cache; cbn; set_solver.
Qed.

Lemma unblock_ip_removes b env ip w :
  MStr ip ∈ BLOCKED_IP_CACHE w →
  removal_returns b env ip →
  fst (unblock_ip b env ip w) = Ok None
  ∧ BLOCKED_IP_CACHE (snd (unblock_ip b env ip w))
    = BLOCKED_IP_CACHE w ∖ {[MStr ip]}.
Proof.
  intros H Hr. unfold removal_returns in Hr.
  destruct b; cbn [unblock_ip removal_cmd] in *.
  - destruct Hr as [s Hs]. rewrite (windows_unblock_ip_returns env ip s w H Hs).
    cbn [fst snd]. by rewrite persisted_cache.
  - destruct Hr as [s Hs]. rewrite (linux_unblock_ip_returns env ip s w H Hs).
    cbn [fst snd]. by rewrite persisted_cache.
  - rewrite (sdn_unblock_ip_present env ip w H).
    cbn [fst snd]. by rewrite persisted_cache.
Qed.

(** C10 as stated fails when the removal call of the unblocking backend
    raises: after [SDNController] has blocked an address with an embedded null
    character, [WindowsFirewall.unblock_ip] returns normally and the entry is
    still there, for [LinuxIPTables.block_ip] as for every other reader. *)
Lemma unblock_ip_raise_entry_stays :
  fst (block_ip SDN env_ok attacker_nul 60 (boot None))
  = Ok (Some (blocked_status SDN 60))
  ∧ fst (unblock_ip Windows env_ok attacker_nul
           (snd (block_ip SDN env_ok attacker_nul 60 (boot None)))) = Ok None
  ∧ contains attacker_nul
      (snd (unblock_ip Windows env_ok attacker_nul
              (snd (block_ip SDN env_ok attacker_nul 60 (boot None))))) = true
  ∧ fst (block_ip Linux env_ok attacker_nul 5
           (snd (unblock_ip Windows env_ok attacker_nul
                   (snd (block_ip SDN env_ok attacker_nul 60 (boot None))))))
    = Ok (Some (IP_ALREADY_BLOCKED_FOR 5)).
Proof. repeat split; vm_compute; reflexivity. Qed.

(** C10, amended.  The backends work on one set.  After a block through any
    backend has returned its blocked status, the address is in that set, a
    block of it through [WindowsFirewall] or [LinuxIPTables] (the backends
    that consult the set) returns the already-blocked status and changes
    nothing, and an unblock through any backend whose removal command, if it
    has one, runs and returns takes the entry out of the set, after which no
    backend finds it. *)
Theorem shared_registry b1 b2 b3 env1 env2 env3 ip d d2 w :
  fst (block_ip b1 env1 ip d w) = Ok (Some (blocked_status b1 d)) →
  contains ip (snd (block_ip b1 env1 ip d w)) = true
  ∧ (b2 ≠ SDN →
     block_ip b2 env2 ip d2 (snd (block_ip b1 env1 ip d w))
     = (Ok (Some (IP_ALREADY_BLOCKED_FOR d2)), snd (block_ip b1 env1 ip d w)))
  ∧ (removal_returns b3 env3 ip →
     fst (unblock_ip b3 env3 ip (snd (block_ip b1 env1 ip d w))) = Ok None
     ∧ contains ip
         (snd (unblock_ip b3 env3 ip (snd (block_ip b1 env1 ip d w)))) = false
     ∧ ∀ b4 env4 d4,
         fst (block_ip b4 env4 ip d4
                (snd (unblock_ip b3 env3 ip (snd (block_ip b1 env1 ip d w)))))
         ≠ Ok (Some (IP_ALREADY_BLOCKED_FOR d4))).
Proof.
  intros Hr. pose proof (block_ip_reports_membership b1 env1 ip d w Hr) as Hin.
  split; [by apply bool_decide_eq_true_2 |].
  split; [intros Hb; by apply block_ip_already_blocked |].
  intros Hrem.
  destruct (unblock_ip_removes b3 env3 ip _ Hin Hrem) as [Hres Hc].
  assert (MStr ip ∉ BLOCKED_IP_CACHE
            (snd (unblock_ip b3 env3 ip (snd (block_ip b1 env1 ip d w)))))
    as Hout by (rewrite Hc; set_solver).
  split; [exact Hres |]. split; [by apply bool_decide_eq_false_2 |].
  intros b4 env4 d4. revert Hout.
  generalize (snd (unblock_ip b3 env3 ip (snd (block_ip b1 env1 ip d w)))).
  intros w3 Hout.
  destruct b4; run; rewrite ?(bool_decide_eq_false_2 _ Hout);
    repeat match goal with
           | |- context [has_nul ?c] => destruct (has_nul c)
           | |- context [os_system_outcome ?e ?c] =>
               destruct (os_system_outcome e c)
           | |- context [requests_importable ?e] =>
               destruct (requests_importable e)
           | |- context [requests_post_error ?e] =>
               destruct (requests_post_error e)
           | _ => progress cbn
           | _ => rewrite save_blocked_cache_persisted
           end; discriminate.
Qed.

Lemma shared_registry_witness :
  fst (block_ip Windows env_ok attacker 60 (boot None))
  = Ok (Some (blocked_status Windows 60))
  ∧ contains attacker (snd (block_ip Windows env_ok attacker 60 (boot None)))
    = true.
Proof.
  assert (fst (block_ip Windows env_ok attacker 60 (boot None))
          = Ok (Some (blocked_status Windows 60))) as H
    by (vm_compute; reflexivity).
  split; [exact H |].
  exact (proj1 (shared_registry Windows Linux SDN env_ok env_ok env_ok attacker
                  60 5 (boot None) H)).
Defined.

(** ** Expiry *)

(** The timer of a [WindowsFirewall] block, once it fires, issues the delete
    command once and takes the address out; the explicit unblock that comes
    after it is the guarded no-op. *)
Example windows_timer_expiry :
  contains attacker (snd (fire env_ok 0 world_blocked)) = false
  ∧ calls (snd (fire env_ok 0 world_blocked))
    = (calls world_blocked
       ++ [Shell (WindowsFirewall.delete_rule_cmd attacker)])%list
  ∧ timers (snd (fire env_ok 0 world_blocked)) = []
  ∧ unblock_ip Windows env_ok attacker (snd (fire env_ok 0 world_blocked))
    = (Ok None, snd (fire env_ok 0 world_blocked)).
Proof. repeat split; vm_compute; reflexivity. Qed.

(** Two [SDNController] blocks of one address leave two timers; the first to
    fire removes the entry, the second raises [KeyError] in its thread. *)
Example sdn_second_timer_raises :
  fst (fire env_ok 0
         (snd (fire env_ok 0
                 (snd (block_ip SDN env_ok attacker 60
                         (snd (block_ip SDN env_ok attacker 60 (boot None))))))))
  = Raise (KeyError attacker).
Proof. vm_compute. reflexivity. Qed.

(** * Further properties of the module *)

Lemma persisted_timers env w : timers (persisted env w) = timers w.
Proof. by destruct (persisted_frame env w) as (_ & -> & _). Qed.

Lemma persisted_calls env w : calls (persisted env w) = calls w.
Proof. by destruct (persisted_frame env w) as (_ & _ & -> & _). Qed.

Lemma persisted_stdout env w : stdout (persisted env w) = stdout w.
Proof. by destruct (persisted_frame env w) as (_ & _ & _ & ->). Qed.

Ltac frame_simpl :=
  cbn; rewrite ?persisted_cache, ?persisted_timers, ?persisted_calls,
    ?persisted_stdout; cbn.

(** ** What a call can and cannot touch *)

Lemma block_ip_cache_cases b env ip d w :
  BLOCKED_IP_CACHE (snd (block_ip b env ip d w)) = BLOCKED_IP_CACHE w
  ∨ BLOCKED_IP_CACHE (snd (block_ip b env ip d w))
    = {[MStr ip]} ∪ BLOCKED_IP_CACHE w.
Proof. destruct b; persist_cases; frame_simpl; auto. Qed.

Lemma unblock_ip_cache_cases b env ip w :
  BLOCKED_IP_CACHE (snd (unblock_ip b env ip w)) = BLOCKED_IP_CACHE w
  ∨ BLOCKED_IP_CACHE (snd (unblock_ip b env ip w))
    = BLOCKED_IP_CACHE w ∖ {[MStr ip]}.
Proof. destruct b; persist_cases; frame_simpl; auto. Qed.

Lemma unblock_ip_timers b env ip w :
  timers (snd (unblock_ip b env ip w)) = timers w.
Proof. destruct b; persist_cases; frame_simpl; auto. Qed.

(** X2.  A call about one address leaves every other member of the registry
    as it was, whatever the backend and whatever the outside does:
    [block_ip] never takes a member out and [unblock_ip] never puts one in. *)
Theorem registry_frame b env ip d w :
  BLOCKED_IP_CACHE (snd (block_ip b env ip d w)) ∖ {[MStr ip]}
  = BLOCKED_IP_CACHE w ∖ {[MStr ip]}
  ∧ BLOCKED_IP_CACHE w ⊆ BLOCKED_IP_CACHE (snd (block_ip b env ip d w))
  ∧ BLOCKED_IP_CACHE (snd (unblock_ip b env ip w)) ∖ {[MStr ip]}
    = BLOCKED_IP_CACHE w ∖ {[MStr ip]}
  ∧ BLOCKED_IP_CACHE (snd (unblock_ip b env ip w)) ⊆ BLOCKED_IP_CACHE w.
Proof.
  destruct (block_ip_cache_cases b env ip d w) as [-> | ->],
    (unblock_ip_cache_cases b env ip w) as [-> | ->]; set_solver.
Qed.

(** X3.  An [unblock_ip] never starts or cancels a timer; a [block_ip] leaves
    the pending timers in place and adds at most the one expiry timer of its
    backend.  Each call makes at most one outbound call: the install call of
    the backend for that address, or its removal command. *)
Theorem call_footprint b env ip d w :
  timers (snd (unblock_ip b env ip w)) = timers w
  ∧ (timers (snd (block_ip b env ip d w)) = timers w
     ∨ timers (snd (block_ip b env ip d w))
       = (timers w ++ expiry_timer b ip d)%list)
  ∧ (calls (snd (block_ip b env ip d w)) = calls w
     ∨ calls (snd (block_ip b env ip d w))
       = (calls w ++ [install_call b ip])%list)
  ∧ (calls (snd (unblock_ip b env ip w)) = calls w
     ∨ ∃ cmd, removal_cmd b ip = Some cmd
              ∧ calls (snd (unblock_ip b env ip w))
                = (calls w ++ [Shell cmd])%list).
Proof.
  split; [apply unblock_ip_timers |].
  split; [destruct b; persist_cases; frame_simpl; rewrite ?app_nil_r; auto |].
  split; [destruct b; persist_cases; frame_simpl; auto |].
  destruct b; persist_cases; frame_simpl; eauto.
Qed.

(** ** Commands and statuses as strings *)

Lemma append_length (s t : string) :
  String.length (s +:+ t) = (String.length s + String.length t)%nat.
Proof.
  induction s as [| c s IH]; [reflexivity |].
  change (S (String.length (s +:+ t))
          = S (String.length s + String.length t)%nat).
  by rewrite IH.
Qed.

Lemma append_inj_length (a b c d : string) :
  String.length a = String.length c →
  a +:+ b = c +:+ d →
  a = c ∧ b = d.
Proof.
  revert c. induction a as [| x a IH]; intros [| y c] Hlen Heq;
    cbn in *; try discriminate.
  - by split.
  - injection Heq as -> Heq. injection Hlen as Hlen.
    destruct (IH c Hlen Heq) as [-> ->]. by split.
Qed.

Lemma append_inj_r (a b s : string) : a +:+ s = b +:+ s → a = b.
Proof.
  intros Heq. apply (append_inj_length a s b s); [| exact Heq].
  apply (f_equal String.length) in Heq. rewrite !append_length in Heq. lia.
Qed.

(** An address between two fixed texts, and once more at the end. *)
Lemma sandwich_inj (mid a b : string) :
  a +:+ mid +:+ a = b +:+ mid +:+ b → a = b.
Proof.
  intros Heq. apply (append_inj_length a (mid +:+ a) b (mid +:+ b)); [| exact Heq].
  apply (f_equal String.length) in Heq. rewrite !append_length in Heq. lia.
Qed.

(** X4.  The shell commands name their address unambiguously: two addresses
    with the same add command, the same delete command or the same rule name
    are the same address, for [WindowsFirewall] and for [LinuxIPTables]. *)
Theorem commands_identify_address (ip1 ip2 : string) :
  (rule_name ip1 = rule_name ip2 → ip1 = ip2)
  ∧ (WindowsFirewall.add_rule_cmd ip1 = WindowsFirewall.add_rule_cmd ip2 →
     ip1 = ip2)
  ∧ (WindowsFirewall.delete_rule_cmd ip1 = WindowsFirewall.delete_rule_cmd ip2 →
     ip1 = ip2)
  ∧ (LinuxIPTables.append_cmd ip1 = LinuxIPTables.append_cmd ip2 → ip1 = ip2)
  ∧ (LinuxIPTables.delete_cmd ip1 = LinuxIPTables.delete_cmd ip2 → ip1 = ip2).
Proof.
  split; [unfold rule_name; cbn; intros H; by simplify_eq |].
  split.
  { unfold WindowsFirewall.add_rule_cmd, rule_name, dquote. cbn. intros H.
    simplify_eq.
    apply (sandwich_inj
             (dquote +:+ " dir=in interface=any action=block remoteip=")).
    exact H. }
  split.
  { unfold WindowsFirewall.delete_rule_cmd, rule_name, dquote. cbn. intros H.
    simplify_eq. apply (append_inj_r _ _ dquote). exact H. }
  split.
  { unfold LinuxIPTables.append_cmd. cbn. intros H. simplify_eq.
    apply (append_inj_r _ _ " -j DROP"). exact H. }
  unfold LinuxIPTables.delete_cmd. cbn. intros H. simplify_eq.
  apply (append_inj_r _ _ " -j DROP"). exact H.
Qed.

Lemma commands_identify_address_witness :
  rule_name attacker = rule_name "10.0.0.5" ∧ attacker = "10.0.0.5".
Proof.
  assert (rule_name attacker = rule_name "10.0.0.5") as H by reflexivity.
  split; [exact H |].
  exact (proj1 (commands_identify_address attacker "10.0.0.5") H).
Defined.

(** X5.  A status string tells which outcome it reports and for which
    duration: the blocked, already-blocked, SDN and failed statuses are
    pairwise different for all durations, and each of the first three
    determines its duration. *)
Theorem statuses_are_unambiguous (d d' : Z) :
  IP_BLOCKED_FOR d ≠ IP_ALREADY_BLOCKED_FOR d'
  ∧ IP_BLOCKED_FOR d ≠ SDN_BLOCK_PUSHED_FOR d'
  ∧ IP_ALREADY_BLOCKED_FOR d ≠ SDN_BLOCK_PUSHED_FOR d'
  ∧ IP_BLOCKED_FOR d ≠ BLOCK_FAILED
  ∧ IP_ALREADY_BLOCKED_FOR d ≠ BLOCK_FAILED
  ∧ SDN_BLOCK_PUSHED_FOR d ≠ BLOCK_FAILED
  ∧ (IP_BLOCKED_FOR d = IP_BLOCKED_FOR d' → d = d')
  ∧ (IP_ALREADY_BLOCKED_FOR d = IP_ALREADY_BLOCKED_FOR d' → d = d')
  ∧ (SDN_BLOCK_PUSHED_FOR d = SDN_BLOCK_PUSHED_FOR d' → d = d').
Proof.
  unfold IP_BLOCKED_FOR, IP_ALREADY_BLOCKED_FOR, SDN_BLOCK_PUSHED_FOR,
    BLOCK_FAILED.
  repeat split; try (cbn; discriminate);
    cbn; intros H; simplify_eq; apply (inj pretty);
    apply (append_inj_r _ _ "s"); assumption.
Qed.

Lemma statuses_are_unambiguous_witness :
  IP_BLOCKED_FOR 60 = IP_BLOCKED_FOR (30 + 30) ∧ 60 = 30 + 30.
Proof.
  assert (IP_BLOCKED_FOR 60 = IP_BLOCKED_FOR (30 + 30)) as H by reflexivity.
  split; [exact H |].
  exact (proj1 (proj2 (proj2 (proj2 (proj2 (proj2 (proj2
           (statuses_are_unambiguous 60 (30 + 30)))))))) H).
Defined.

(** ** Start-up *)

Lemma cache_update_prefix items w :
  cache_update items w
  = (if bool_decide (Forall (λ x, is_Some (hashable x)) items)
     then Ok tt else Raise (TypeError "unhashable type"),
     set_cache (list_to_set (hashable_prefix items) ∪ BLOCKED_IP_CACHE w) w).
Proof.
  revert w. induction items as [| x items IH]; intros w.
  - destruct w as [X f t c o]. cbn. unfold set_cache. cbn.
    do 2 f_equal. set_solver.
  - cbn [cache_update hashable_prefix]. destruct (hashable x) as [m |] eqn:Hx.
    + py_unfold. rewrite IH. unfold set_cache. cbn. f_equal.
      * destruct (bool_decide (Forall _ items)) eqn:Hall.
        -- apply bool_decide_eq_true in Hall. rewrite bool_decide_eq_true_2;
             [reflexivity |]. constructor; [by rewrite Hx | done].
        -- apply bool_decide_eq_false in Hall. rewrite bool_decide_eq_false_2;
             [reflexivity |]. intros Hc. apply Hall. by inversion Hc.
      * f_equal. set_solver.
    + py_unfold. rewrite bool_decide_eq_false_2.
      * destruct w as [X f t c o]. unfold set_cache. cbn. do 2 f_equal.
        set_solver.
      * intros Hc. inversion Hc as [| ? ? Hs _]. rewrite Hx in Hs.
        by destruct Hs.
Qed.

(** X6.  Loading a file that holds a JSON array puts into the registry the
    elements that come before the first unhashable one (a nested array or an
    object), duplicates collapsing; the [TypeError] of that element is
    swallowed, so start-up returns normally with the part loaded so far, and
    nothing but the set is touched. *)
Theorem load_array_keeps_hashable_prefix env items :
  module_init env (boot (Some (Document (JArr items))))
  = (Ok tt,
     set_cache (list_to_set (hashable_prefix items))
       (boot (Some (Document (JArr items))))).
Proof.
  unfold module_init, makedirs, load_blocked_cache, json_load. py_unfold. cbn.
  rewrite cache_update_prefix. cbn.
  assert (list_to_set (hashable_prefix items) ∪ (∅ : gset member)
          = list_to_set (hashable_prefix items)) as -> by set_solver.
  by destruct (bool_decide _).
Qed.

Lemma module_init_frame env disk :
  BLOCK_FILE (snd (module_init env (boot disk))) = disk
  ∧ timers (snd (module_init env (boot disk))) = []
  ∧ calls (snd (module_init env (boot disk))) = []
  ∧ stdout (snd (module_init env (boot disk))) = [].
Proof.
  destruct disk as [[| | j |] |];
    try (unfold module_init, makedirs, load_blocked_cache, json_load;
         py_unfold; cbn; by destruct (makedirs_error env)).
  destruct j;
    try (unfold module_init, makedirs, load_blocked_cache, json_load;
         py_unfold; cbn; by destruct (makedirs_error env)).
  unfold module_init, makedirs, load_blocked_cache, json_load. py_unfold. cbn.
  rewrite cache_update_prefix. by destruct (bool_decide _).
Qed.

(** X7.  Module initialisation fails in exactly one situation: the file is
    not there and its directory cannot be created; the exception of
    [os.makedirs] is then the one that leaves.  Whatever it finds, it does
    not write the file, start a timer or issue any command: blocks restored
    from the file are neither installed again nor given an expiry. *)
Theorem module_init_outcome env disk :
  fst (module_init env (boot disk))
  = match disk, makedirs_error env with
    | None, Some e => Raise e
    | _, _ => Ok tt
    end
  ∧ BLOCK_FILE (snd (module_init env (boot disk))) = disk
  ∧ timers (snd (module_init env (boot disk))) = []
  ∧ calls (snd (module_init env (boot disk))) = []
  ∧ stdout (snd (module_init env (boot disk))) = [].
Proof.
  split; [| apply module_init_frame].
  destruct disk as [[| | j |] |];
    try (unfold module_init, makedirs, load_blocked_cache, json_load;
         py_unfold; cbn; by destruct (makedirs_error env)).
  destruct j;
    try (unfold module_init, makedirs, load_blocked_cache, json_load;
         py_unfold; cbn; by destruct (makedirs_error env)).
  unfold module_init, makedirs, load_blocked_cache, json_load. py_unfold. cbn.
  rewrite cache_update_prefix. by destruct (bool_decide _).
Qed.

Lemma module_init_malformed env :
  module_init env (boot (Some Malformed)) = (Ok tt, boot (Some Malformed)).
Proof.
  unfold module_init, makedirs, load_blocked_cache, json_load. py_unfold.
  reflexivity.
Qed.

(** X8.  A write that fails after the file has been opened leaves it
    truncated: the in-memory registry is as before, but the next start-up
    finds an empty registry, whatever had been persisted earlier. *)
Theorem failed_write_loses_mirror env env' e w :
  open_w_error env = None →
  write_error env = Some e →
  fst (save_blocked_cache env w) = Ok tt
  ∧ BLOCKED_IP_CACHE (persisted env w) = BLOCKED_IP_CACHE w
  ∧ BLOCK_FILE (persisted env w) = Some Malformed
  ∧ fst (restart env' (persisted env w)) = Ok tt
  ∧ BLOCKED_IP_CACHE (snd (restart env' (persisted env w))) = ∅.
Proof.
  intros Ho Hw.
  assert (persisted env w = set_file (Some Malformed) w) as Hp.
  { unfold persisted. by rewrite save_blocked_cache_eq, Ho, Hw. }
  split; [by rewrite save_blocked_cache_eq |].
  split; [apply persisted_cache |].
  split; [by rewrite Hp |].
  rewrite Hp. unfold restart. cbn [BLOCK_FILE set_file].
  rewrite module_init_malformed. by split.
Qed.

Lemma failed_write_loses_mirror_witness :
  open_w_error env_disk_full = None
  ∧ write_error env_disk_full = Some (OSError "No space left on device")
  ∧ BLOCKED_IP_CACHE
      (snd (restart env_ok (persisted env_disk_full world_blocked))) = ∅.
Proof.
  assert (open_w_error env_disk_full = None) as H1 by reflexivity.
  assert (write_error env_disk_full = Some (OSError "No space left on device"))
    as H2 by reflexivity.
  split; [exact H1 |]. split; [exact H2 |].
  exact (proj2 (proj2 (proj2 (proj2
           (failed_write_loses_mirror env_disk_full env_ok _ world_blocked
              H1 H2))))).
Defined.

(** ** The file follows the registry along a run *)








(** ** Blocks, unblocks and timers in sequence *)

(** What a block that reports success has done. *)
Lemma block_ip_blocked_shape b env ip d w :
  fst (block_ip b env ip d w) = Ok (Some (blocked_status b d)) →
  BLOCKED_IP_CACHE (snd (block_ip b env ip d w))
  = {[MStr ip]} ∪ BLOCKED_IP_CACHE w
  ∧ timers (snd (block_ip b env ip d w))
    = (timers w ++ expiry_timer b ip d)%list
  ∧ calls (snd (block_ip b env ip d w))
    = (calls w ++ [install_call b ip])%list.
Proof.
  destruct b; persist_cases; intros Hr; try discriminate Hr; frame_simpl;
    rewrite ?app_nil_r; auto.
Qed.

(** What an unblock of a registered address does when its command returns. *)
Lemma unblock_ip_present_returns b env ip w :
  MStr ip ∈ BLOCKED_IP_CACHE w →
  removal_returns b env ip →
  fst (unblock_ip b env ip w) = Ok None
  ∧ BLOCKED_IP_CACHE (snd (unblock_ip b env ip w))
    = BLOCKED_IP_CACHE w ∖ {[MStr ip]}
  ∧ timers (snd (unblock_ip b env ip w)) = timers w
  ∧ calls (snd (unblock_ip b env ip w))
    = (calls w ++ match removal_cmd b ip with
                  | Some cmd => [Shell cmd]
                  | None => []
                  end)%list.
Proof.
  intros H Hr. unfold removal_returns in Hr.
  destruct b; cbn [unblock_ip removal_cmd] in *.
  - destruct Hr as [s Hs]. rewrite (windows_unblock_ip_returns env ip s w H Hs).
    frame_simpl. auto.
  - destruct Hr as [s Hs]. rewrite (linux_unblock_ip_returns env ip s w H Hs).
    frame_simpl. auto.
  - rewrite (sdn_unblock_ip_present env ip w H). frame_simpl.
    rewrite app_nil_r. auto.
Qed.

(** X10.  A block of a fresh address followed by an unblock whose command
    returns, through the same backend or another, gives back the registry
    the process started with; the unblock returns [None]. *)
Theorem block_then_unblock_restores_registry b b' env env' ip d w :
  MStr ip ∉ BLOCKED_IP_CACHE w →
  fst (block_ip b env ip d w) = Ok (Some (blocked_status b d)) →
  removal_returns b' env' ip →
  fst (unblock_ip b' env' ip (snd (block_ip b env ip d w))) = Ok None
  ∧ BLOCKED_IP_CACHE (snd (unblock_ip b' env' ip (snd (block_ip b env ip d w))))
    = BLOCKED_IP_CACHE w.
Proof.
  intros Hfresh Hr Hrem.
  destruct (block_ip_blocked_shape b env ip d w Hr) as (Hc & _ & _).
  assert (MStr ip ∈ BLOCKED_IP_CACHE (snd (block_ip b env ip d w))) as Hin
    by (rewrite Hc; set_solver).
  destruct (unblock_ip_present_returns b' env' ip _ Hin Hrem)
    as (Hres & Hc' & _ & _).
  split; [exact Hres |]. rewrite Hc', Hc. set_solver.
Qed.

Lemma block_then_unblock_restores_registry_witness :
  (MStr attacker ∉ BLOCKED_IP_CACHE (boot None))
  ∧ fst (block_ip SDN env_offline attacker 60 (boot None))
    = Ok (Some (blocked_status SDN 60))
  ∧ removal_returns Linux env_exit1 attacker
  ∧ BLOCKED_IP_CACHE
      (snd (unblock_ip Linux env_exit1 attacker
              (snd (block_ip SDN env_offline attacker 60 (boot None)))))
    = BLOCKED_IP_CACHE (boot None).
Proof.
  assert (MStr attacker ∉ BLOCKED_IP_CACHE (boot None)) as H1
    by apply not_elem_of_empty.
  assert (fst (block_ip SDN env_offline attacker 60 (boot None))
          = Ok (Some (blocked_status SDN 60))) as H2
    by (vm_compute; reflexivity).
  assert (removal_returns Linux env_exit1 attacker) as H3
    by (exists 1; split; reflexivity).
  split; [exact H1 |]. split; [exact H2 |]. split; [exact H3 |].
  exact (proj2 (block_then_unblock_restores_registry SDN Linux env_offline
                  env_exit1 attacker 60 (boot None) H1 H2 H3)).
Defined.

(** A pending timer of [WindowsFirewall] or [SDNController] fires:
    [unblock_ip] of that backend runs on the world without the timer. *)
Lemma fire_timer_at b env ip d before after w :
  b ≠ Linux →
  timers w = (before ++ expiry_timer b ip d ++ after)%list →
  fire env (length before) w
  = unblock_ip b env ip
      {| BLOCKED_IP_CACHE := BLOCKED_IP_CACHE w; BLOCK_FILE := BLOCK_FILE w;
         timers := (before ++ after)%list; calls := calls w;
         stdout := stdout w |}.
Proof.
  intros Hb Ht. unfold fire. rewrite Ht.
  destruct b; [| done |]; cbn [expiry_timer app].
  - rewrite list_lookup_middle by done. cbn [target args].
    by rewrite delete_middle.
  - rewrite list_lookup_middle by done. cbn [target args].
    by rewrite delete_middle.
Qed.

Lemma fire_last_timer b env ip d w0 w :
  b ≠ Linux →
  timers w = (timers w0 ++ expiry_timer b ip d)%list →
  fire env (length (timers w0)) w
  = unblock_ip b env ip
      {| BLOCKED_IP_CACHE := BLOCKED_IP_CACHE w; BLOCK_FILE := BLOCK_FILE w;
         timers := timers w0; calls := calls w; stdout := stdout w |}.
Proof.
  intros Hb Ht.
  rewrite (fire_timer_at b env ip d (timers w0) [] w Hb)
    by (by rewrite app_nil_r).
  by rewrite app_nil_r.
Qed.

(** X11.  The timer started by a successful [WindowsFirewall] or
    [SDNController] block, when it fires and the removal command returns,
    takes the address out of the registry, leaves the timers that were
    pending before the block, and has issued the removal command of the
    backend exactly once ([SDNController] has none). *)
Theorem expiry_removes_block b env env' ip d w :
  b ≠ Linux →
  fst (block_ip b env ip d w) = Ok (Some (blocked_status b d)) →
  removal_returns b env' ip →
  fst (fire env' (length (timers w)) (snd (block_ip b env ip d w))) = Ok None
  ∧ contains ip (snd (fire env' (length (timers w)) (snd (block_ip b env ip d w))))
    = false
  ∧ timers (snd (fire env' (length (timers w)) (snd (block_ip b env ip d w))))
    = timers w
  ∧ calls (snd (fire env' (length (timers w)) (snd (block_ip b env ip d w))))
    = (calls w ++ install_call b ip
                  :: match removal_cmd b ip with
                     | Some cmd => [Shell cmd]
                     | None => []
                     end)%list.
Proof.
  intros Hb Hr Hrem.
  destruct (block_ip_blocked_shape b env ip d w Hr) as (Hc & Ht & Hk).
  rewrite (fire_last_timer b env' ip d w _ Hb Ht).
  set (w1 := {| BLOCKED_IP_CACHE := _ |}).
  assert (MStr ip ∈ BLOCKED_IP_CACHE w1) as Hin
    by (subst w1; cbn; rewrite Hc; set_solver).
  destruct (unblock_ip_present_returns b env' ip w1 Hin Hrem)
    as (Hres & Hc' & Ht' & Hk').
  split; [exact Hres |].
  split; [apply bool_decide_eq_false_2; rewrite Hc'; set_solver |].
  split; [by rewrite Ht' |].
  rewrite Hk'. subst w1. cbn. rewrite Hk. by rewrite <- app_assoc.
Qed.

Lemma expiry_removes_block_witness :
  Windows ≠ Linux
  ∧ fst (block_ip Windows env_ok attacker 60 (boot None))
    = Ok (Some (blocked_status Windows 60))
  ∧ removal_returns Windows env_ok attacker
  ∧ contains attacker
      (snd (fire env_ok (length (timers (boot None)))
              (snd (block_ip Windows env_ok attacker 60 (boot None)))))
    = false.
Proof.
  assert (Windows ≠ Linux) as H1 by discriminate.
  assert (fst (block_ip Windows env_ok attacker 60 (boot None))
          = Ok (Some (blocked_status Windows 60))) as H2
    by (vm_compute; reflexivity).
  assert (removal_returns Windows env_ok attacker) as H3
    by (exists 0; split; reflexivity).
  split; [exact H1 |]. split; [exact H2 |]. split; [exact H3 |].
  exact (proj1 (proj2 (expiry_removes_block Windows env_ok env_ok attacker 60
                         (boot None) H1 H2 H3))).
Defined.

(** X12.  Timers are not tied to the block that started them.  After a
    block, an explicit unblock and a second block of the same address, the
    timer of the first block is still pending; when it fires it removes the
    address, although the timer of the second block has not expired and
    stays pending. *)
Theorem stale_timer_ends_new_block b b2 b3 env1 env2 env3 env4 ip d1 d2 w :
  b ≠ Linux →
  fst (block_ip b env1 ip d1 w) = Ok (Some (blocked_status b d1)) →
  removal_returns b2 env2 ip →
  fst (block_ip b3 env3 ip d2
         (snd (unblock_ip b2 env2 ip (snd (block_ip b env1 ip d1 w)))))
  = Ok (Some (blocked_status b3 d2)) →
  removal_returns b env4 ip →
  contains ip
    (snd (block_ip b3 env3 ip d2
            (snd (unblock_ip b2 env2 ip (snd (block_ip b env1 ip d1 w))))))
  = true
  ∧ fst (fire env4 (length (timers w))
           (snd (block_ip b3 env3 ip d2
                   (snd (unblock_ip b2 env2 ip
                           (snd (block_ip b env1 ip d1 w)))))))
    = Ok None
  ∧ contains ip
      (snd (fire env4 (length (timers w))
              (snd (block_ip b3 env3 ip d2
                      (snd (unblock_ip b2 env2 ip
                              (snd (block_ip b env1 ip d1 w))))))))
    = false
  ∧ timers
      (snd (fire env4 (length (timers w))
              (snd (block_ip b3 env3 ip d2
                      (snd (unblock_ip b2 env2 ip
                              (snd (block_ip b env1 ip d1 w))))))))
    = (timers w ++ expiry_timer b3 ip d2)%list.
Proof.
  intros Hb Hr1 Hrem2 Hr3 Hrem4.
  destruct (block_ip_blocked_shape b env1 ip d1 w Hr1) as (Hc1 & Ht1 & _).
  set (w1 := snd (block_ip b env1 ip d1 w)) in *.
  pose proof (unblock_ip_timers b2 env2 ip w1) as Ht2.
  set (w2 := snd (unblock_ip b2 env2 ip w1)) in *.
  destruct (block_ip_blocked_shape b3 env3 ip d2 w2 Hr3) as (Hc3 & Ht3 & _).
  set (w3 := snd (block_ip b3 env3 ip d2 w2)) in *.
  assert (timers w3
          = (timers w ++ expiry_timer b ip d1 ++ expiry_timer b3 ip d2)%list)
    as Ht by (by rewrite Ht3, Ht2, Ht1, <- app_assoc).
  assert (MStr ip ∈ BLOCKED_IP_CACHE w3) as Hin by (rewrite Hc3; set_solver).
  split; [by apply bool_decide_eq_true_2 |].
  rewrite (fire_timer_at b env4 ip d1 _ _ w3 Hb Ht).
  set (w4 := {| BLOCKED_IP_CACHE := _ |}).
  destruct (unblock_ip_present_returns b env4 ip w4 Hin Hrem4)
    as (Hres & Hc' & Ht' & _).
  split; [exact Hres |].
  split; [apply bool_decide_eq_false_2; rewrite Hc'; set_solver |].
  by rewrite Ht'.
Qed.

Lemma stale_timer_ends_new_block_witness :
  Windows ≠ Linux
  ∧ fst (block_ip Windows env_ok attacker 60 (boot None))
    = Ok (Some (blocked_status Windows 60))
  ∧ removal_returns Windows env_ok attacker
  ∧ fst (block_ip Windows env_ok attacker 600
           (snd (unblock_ip Windows env_ok attacker
                   (snd (block_ip Windows env_ok attacker 60 (boot None))))))
    = Ok (Some (blocked_status Windows 600))
  ∧ contains attacker
      (snd (fire env_ok (length (timers (boot None)))
              (snd (block_ip Windows env_ok attacker 600
                      (snd (unblock_ip Windows env_ok attacker
                              (snd (block_ip Windows env_ok attacker 60
                                      (boot None))))))))) = false.
Proof.
  assert (Windows ≠ Linux) as H1 by discriminate.
  assert (fst (block_ip Windows env_ok attacker 60 (boot None))
          = Ok (Some (blocked_status Windows 60))) as H2
    by (vm_compute; reflexivity).
  assert (removal_returns Windows env_ok attacker) as H3
    by (exists 0; split; reflexivity).
  assert (fst (block_ip Windows env_ok attacker 600
                 (snd (unblock_ip Windows env_ok attacker
                         (snd (block_ip Windows env_ok attacker 60
                                 (boot None))))))
          = Ok (Some (blocked_status Windows 600))) as H4
    by (vm_compute; reflexivity).
  split; [exact H1 |]. split; [exact H2 |]. split; [exact H3 |].
  split; [exact H4 |].
  exact (proj1 (proj2 (proj2
           (stale_timer_ends_new_block Windows Windows Windows env_ok env_ok
              env_ok env_ok attacker 60 600 (boot None) H1 H2 H3 H4 H3)))).
Defined.

(** X13.  [SDNController] starts a timer at every block, also for an address
    it has blocked before.  Of the two timers of two blocks of one address
    the first to fire removes the address and the second raises [KeyError]
    in its thread, leaving the registry as it is. *)
Theorem sdn_duplicate_timers env1 env2 env3 env4 ip d1 d2 w :
  fst (block_ip SDN env1 ip d1 w) = Ok (Some (blocked_status SDN d1)) →
  fst (block_ip SDN env2 ip d2 (snd (block_ip SDN env1 ip d1 w)))
  = Ok (Some (blocked_status SDN d2)) →
  timers (snd (block_ip SDN env2 ip d2 (snd (block_ip SDN env1 ip d1 w))))
  = (timers w ++ expiry_timer SDN ip d1 ++ expiry_timer SDN ip d2)%list
  ∧ fst (fire env3 (length (timers w))
           (snd (block_ip SDN env2 ip d2 (snd (block_ip SDN env1 ip d1 w)))))
    = Ok None
  ∧ fst (fire env4 (length (timers w))
           (snd (fire env3 (length (timers w))
                   (snd (block_ip SDN env2 ip d2
                           (snd (block_ip SDN env1 ip d1 w)))))))
    = Raise (KeyError ip)
  ∧ BLOCKED_IP_CACHE
      (snd (fire env4 (length (timers w))
              (snd (fire env3 (length (timers w))
                      (snd (block_ip SDN env2 ip d2
                              (snd (block_ip SDN env1 ip d1 w))))))))
    = BLOCKED_IP_CACHE w ∖ {[MStr ip]}.
Proof.
  intros Hr1 Hr2.
  destruct (block_ip_blocked_shape SDN env1 ip d1 w Hr1) as (Hc1 & Ht1 & _).
  set (w1 := snd (block_ip SDN env1 ip d1 w)) in *.
  destruct (block_ip_blocked_shape SDN env2 ip d2 w1 Hr2) as (Hc2 & Ht2 & _).
  set (w2 := snd (block_ip SDN env2 ip d2 w1)) in *.
  assert (timers w2
          = (timers w ++ expiry_timer SDN ip d1 ++ expiry_timer SDN ip d2)%list)
    as Ht by (by rewrite Ht2, Ht1, <- app_assoc).
  split; [exact Ht |].
  rewrite (fire_timer_at SDN env3 ip d1 _ _ w2 ltac:(discriminate) Ht).
  set (w3 := {| BLOCKED_IP_CACHE := _ |}).
  assert (MStr ip ∈ BLOCKED_IP_CACHE w3) as Hin
    by (subst w3; cbn; rewrite Hc2; set_solver).
  destruct (unblock_ip_present_returns SDN env3 ip w3 Hin I)
    as (Hres & Hc3 & Ht3 & _).
  split; [exact Hres |].
  set (w4 := snd (unblock_ip SDN env3 ip w3)) in *.
  assert (timers w4 = (timers w ++ expiry_timer SDN ip d2 ++ [])%list) as Ht4
    by (rewrite Ht3; subst w3; cbn; by rewrite ?app_nil_r).
  rewrite (fire_timer_at SDN env4 ip d2 _ _ w4 ltac:(discriminate) Ht4).
  set (w5 := {| BLOCKED_IP_CACHE := _ |}).
  assert (MStr ip ∉ BLOCKED_IP_CACHE w5) as Hout
    by (subst w5; cbn; rewrite Hc3; set_solver).
  cbn [unblock_ip]. rewrite (sdn_unblock_ip_absent env4 ip w5 Hout).
  split; [reflexivity |].
  cbn. rewrite Hc3. subst w3. cbn. rewrite Hc2, Hc1. set_solver.
Qed.

Lemma sdn_duplicate_timers_witness :
  fst (block_ip SDN env_ok attacker 60 (boot None))
  = Ok (Some (blocked_status SDN 60))
  ∧ fst (block_ip SDN env_ok attacker 30
           (snd (block_ip SDN env_ok attacker 60 (boot None))))
    = Ok (Some (blocked_status SDN 30))
  ∧ fst (fire env_ok (length (timers (boot None)))
           (snd (fire env_ok (length (timers (boot None)))
                   (snd (block_ip SDN env_ok attacker 30
                           (snd (block_ip SDN env_ok attacker 60
                                   (boot None))))))))
    = Raise (KeyError attacker).
Proof.
  assert (fst (block_ip SDN env_ok attacker 60 (boot None))
          = Ok (Some (blocked_status SDN 60))) as H1
    by (vm_compute; reflexivity).
  assert (fst (block_ip SDN env_ok attacker 30
                 (snd (block_ip SDN env_ok attacker 60 (boot None))))
          = Ok (Some (blocked_status SDN 30))) as H2
    by (vm_compute; reflexivity).
  split; [exact H1 |]. split; [exact H2 |].
  exact (proj1 (proj2 (proj2
           (sdn_duplicate_timers env_ok env_ok env_ok env_ok attacker 60 30
              (boot None) H1 H2)))).
Defined.

(** ** Exceptions, backend by backend *)

Lemma shell_error_raises env cmd e :
  shell_error env cmd = Some e → shell_raises env cmd e.
Proof.
  unfold shell_error, shell_raises. destruct (has_nul cmd).
  - intros [= <-]. by left.
  - destruct (os_system_outcome env cmd); [done |]. intros [= <-]. by right.
Qed.

Lemma shell_ok_returns env cmd :
  shell_ok env cmd = true → ∃ s, shell_returns env cmd s.
Proof.
  unfold shell_ok, shell_returns. destruct (has_nul cmd); [done |].
  destruct (os_system_outcome env cmd) as [s |]; [| done]. by exists s.
Qed.

(** X14.  [LinuxIPTables] catches nothing.  An exception of [os.system]
    leaves [block_ip] and [unblock_ip] as it is, with the registry, the file
    and the timers untouched; and when the removal command returns for an
    address that is not in the registry, the command has been issued and
    [KeyError] leaves [unblock_ip]. *)
Theorem linux_exceptions_propagate env ip d w :
  (∀ e, MStr ip ∉ BLOCKED_IP_CACHE w →
        shell_error env (LinuxIPTables.append_cmd ip) = Some e →
        fst (block_ip Linux env ip d w) = Raise e
        ∧ BLOCKED_IP_CACHE (snd (block_ip Linux env ip d w)) = BLOCKED_IP_CACHE w
        ∧ BLOCK_FILE (snd (block_ip Linux env ip d w)) = BLOCK_FILE w
        ∧ timers (snd (block_ip Linux env ip d w)) = timers w)
  ∧ (∀ e, shell_error env (LinuxIPTables.delete_cmd ip) = Some e →
          fst (unblock_ip Linux env ip w) = Raise e
          ∧ BLOCKED_IP_CACHE (snd (unblock_ip Linux env ip w))
            = BLOCKED_IP_CACHE w
          ∧ BLOCK_FILE (snd (unblock_ip Linux env ip w)) = BLOCK_FILE w
          ∧ timers (snd (unblock_ip Linux env ip w)) = timers w)
  ∧ (MStr ip ∉ BLOCKED_IP_CACHE w →
     shell_ok env (LinuxIPTables.delete_cmd ip) = true →
     unblock_ip Linux env ip w
     = (Raise (KeyError ip),
        push_call (Shell (LinuxIPTables.delete_cmd ip)) w)).
Proof.
  split; [| split].
  - intros e Hfresh He. apply shell_error_raises in He.
    destruct (os_system_raises env _ e w He) as (w1 & Hos & Hc & Hf & Ht & _).
    cbn [block_ip]. unfold LinuxIPTables.block_ip. py_unfold.
    rewrite bool_decide_eq_false_2 by done. rewrite Hos. cbn. auto.
  - intros e He. apply shell_error_raises in He.
    destruct (os_system_raises env _ e w He) as (w1 & Hos & Hc & Hf & Ht & _).
    cbn [unblock_ip]. unfold LinuxIPTables.unblock_ip. py_unfold.
    rewrite Hos. cbn. auto.
  - intros Hout Hok. destruct (shell_ok_returns _ _ Hok) as [s Hs].
    by apply (linux_unblock_ip_absent env ip s).
Qed.

Lemma linux_exceptions_propagate_witness :
  (MStr attacker_nul ∉ BLOCKED_IP_CACHE (boot None))
  ∧ shell_error env_ok (LinuxIPTables.append_cmd attacker_nul)
    = Some (ValueError "embedded null byte")
  ∧ fst (block_ip Linux env_ok attacker_nul 60 (boot None))
    = Raise (ValueError "embedded null byte").
Proof.
  assert (MStr attacker_nul ∉ BLOCKED_IP_CACHE (boot None)) as H1
    by apply not_elem_of_empty.
  assert (shell_error env_ok (LinuxIPTables.append_cmd attacker_nul)
          = Some (ValueError "embedded null byte")) as H2 by reflexivity.
  split; [exact H1 |]. split; [exact H2 |].
  exact (proj1 (proj1 (linux_exceptions_propagate env_ok attacker_nul 60
                         (boot None)) _ H1 H2)).
Defined.

(** X15.  [SDNController.block_ip] needs [requests] and nothing else.  If the
    import fails, [ModuleNotFoundError] leaves the call after the first
    print, with nothing else changed.  If it succeeds, the block is recorded
    whether or not the POST reached the controller and whether or not the
    address was registered before: one POST is made, the address is in the
    registry, one timer is started and the pushed status is returned. *)
Theorem sdn_block_ip_outcomes env ip d w :
  (requests_importable env = false →
   block_ip SDN env ip d w
   = (Raise (ModuleNotFoundError "requests"), push_line (LineSdnPush ip) w))
  ∧ (requests_importable env = true →
     fst (block_ip SDN env ip d w) = Ok (Some (SDN_BLOCK_PUSHED_FOR d))
     ∧ BLOCKED_IP_CACHE (snd (block_ip SDN env ip d w))
       = {[MStr ip]} ∪ BLOCKED_IP_CACHE w
     ∧ calls (snd (block_ip SDN env ip d w))
       = (calls w ++ [HttpPost SDNController.SDN_CONTROLLER_URL
                        (SDNController.payload ip) 3])%list
     ∧ timers (snd (block_ip SDN env ip d w))
       = (timers w ++ [{| interval := d; target := SDN; args := ip;
                          daemon := None |}])%list).
Proof.
  split; intros Hi.
  - run. by rewrite Hi.
  - cbn [block_ip]. rewrite (sdn_block_ip_eq env ip d w Hi). frame_simpl. auto.
Qed.

Lemma sdn_block_ip_outcomes_witness :
  requests_importable env_no_requests = false
  ∧ block_ip SDN env_no_requests attacker 60 (boot None)
    = (Raise (ModuleNotFoundError "requests"),
       push_line (LineSdnPush attacker) (boot None)).
Proof.
  assert (requests_importable env_no_requests = false) as H by reflexivity.
  split; [exact H |].
  exact (proj1 (sdn_block_ip_outcomes env_no_requests attacker 60 (boot None)) H).
Defined.

(** X16.  [WindowsFirewall.unblock_ip] is idempotent once its command has
    returned: after a call whose removal command returned, or that found the
    address absent, the address is not in the registry and a further call,
    whatever the outside does, changes nothing at all: no command, no print,
    no write. *)
Theorem windows_unblock_ip_idempotent env env' ip w :
  shell_ok env (WindowsFirewall.delete_rule_cmd ip) = true →
  contains ip (snd (unblock_ip Windows env ip w)) = false
  ∧ unblock_ip Windows env' ip (snd (unblock_ip Windows env ip w))
    = (Ok None, snd (unblock_ip Windows env ip w)).
Proof.
  intros Hok. destruct (shell_ok_returns _ _ Hok) as [s Hs].
  assert (MStr ip ∉ BLOCKED_IP_CACHE (snd (unblock_ip Windows env ip w)))
    as Hout.
  { destruct (decide (MStr ip ∈ BLOCKED_IP_CACHE w)) as [Hin | Hnin].
    - cbn [unblock_ip]. rewrite (windows_unblock_ip_returns env ip s w Hin Hs).
      frame_simpl. set_solver.
    - cbn [unblock_ip]. by rewrite (windows_unblock_ip_absent env ip w Hnin). }
  split; [by apply bool_decide_eq_false_2 |].
  by apply windows_unblock_ip_absent.
Qed.

Lemma windows_unblock_ip_idempotent_witness :
  shell_ok env_exit1 (WindowsFirewall.delete_rule_cmd attacker) = true
  ∧ contains attacker (snd (unblock_ip Windows env_exit1 attacker world_blocked))
    = false.
Proof.
  assert (shell_ok env_exit1 (WindowsFirewall.delete_rule_cmd attacker) = true)
    as H by reflexivity.
  split; [exact H |].
  exact (proj1 (windows_unblock_ip_idempotent env_exit1 env_ok attacker
                  world_blocked H)).
Defined.

(** X17.  Blocks restored from the file have no expiry.  After start-up no
    timer is pending, so whatever timer expiries are awaited, and however
    many, the world stays exactly as start-up left it: a restored address
    stays blocked until somebody unblocks it. *)
Theorem restored_blocks_never_expire env disk (expiries : list (Env * nat)) :
  run (map (λ en, (fst en, Expire (snd en))) expiries)
    (snd (module_init env (boot disk)))
  = snd (module_init env (boot disk)).
Proof.
  destruct (module_init_frame env disk) as (_ & Ht & _).
  revert Ht. generalize (snd (module_init env (boot disk))). intros w Ht.
  induction expiries as [| [env1 n] expiries IH]; [reflexivity |].
  cbn [map run step fst snd]. unfold fire. rewrite Ht. cbn. exact IH.
Qed.
